(** * Trainer scout and outreach pipeline: a shallow embedding

    The development follows the two scripts of the repository:

    - [task1_trainer_scout.py]: [compute_trainer_scores] (grouping, the
      minimum-response filter, mean of per-column means, early/late split,
      composite score, ranking) and [extract_best_quotes]; further down
      [load_and_clean], [generate_case_study_angle], [build_results] and
      [print_console_results];
    - [task2_outreach.py]: [generate_outreach_draft].

    Conventions of the embedding.

    - A pandas/numpy float is an [option Q]: [Some q] is the number [q],
      [None] is NaN.  Arithmetic is exact on [Q]; NaN propagates through
      [+], [-] and [*], and every comparison with NaN is false.
    - A Python [str] is a [string]; one [ascii] stands for one character.
    - A DataFrame is the list of its rows in index order; a row maps column
      labels to cell values.
    - [sys.exit] and exceptions are explicit outcomes. *)

From Stdlib Require Import ZArith QArith Qround List String Ascii Bool Lia.
From Stdlib Require Import Permutation Sorted Morphisms Setoid Lqa.
From Stdlib Require Decimal DecimalFacts DecimalNat DecimalString.
Import ListNotations.

Local Open Scope Q_scope.

(** ** Python and pandas primitives *)

Module Py.

(** *** Floats with NaN *)

Definition float : Type := option Q.

Definition nan : float := None.

Definition lift2 (f : Q -> Q -> Q) (x y : float) : float :=
  match x, y with
  | Some a, Some b => Some (f a b)
  | _, _ => None
  end.

Definition fadd : float -> float -> float := lift2 Qplus.
Definition fsub : float -> float -> float := lift2 Qminus.
Definition fmul : float -> float -> float := lift2 Qmult.

(** [x >= y] on floats: false as soon as one side is NaN. *)
Definition fge (x y : float) : bool :=
  match x, y with
  | Some a, Some b => Qle_bool b a
  | _, _ => false
  end.

(** Equality of floats up to the representation of the rational. *)
Definition feq (x y : float) : Prop :=
  match x, y with
  | Some a, Some b => a == b
  | None, None => True
  | _, _ => False
  end.

Definition notna (x : float) : bool :=
  match x with Some _ => true | None => false end.

(** [rint]: round to the nearest integer, ties to the even one. *)
Definition rint (q : Q) : Z :=
  let f := Qfloor q in
  match Qcompare (q - inject_Z f) (1 # 2) with
  | Lt => f
  | Gt => (f + 1)%Z
  | Eq => if Z.even f then f else (f + 1)%Z
  end.

(** [round(x, 2)] of numpy and of [Series.round]: scale by 100, round to the
    nearest integer, scale back. *)
Definition round2Q (q : Q) : Q := inject_Z (rint (q * 100)) / 100.

Definition round2 (x : float) : float := option_map round2Q x.

(** *** Means that skip NaN *)

Fixpoint observed (xs : list float) : list Q :=
  match xs with
  | [] => []
  | Some q :: xs' => q :: observed xs'
  | None :: xs' => observed xs'
  end.

Definition Qsum (qs : list Q) : Q := fold_right Qplus 0 qs.

(** [Series.mean()] with the default [skipna=True]: the mean of the values
    that are not NaN, and NaN when there is none. *)
Definition nanmean (xs : list float) : float :=
  match observed xs with
  | [] => None
  | q :: qs => Some (Qsum (q :: qs) / inject_Z (Z.of_nat (List.length (q :: qs))))
  end.

(** *** Sorting *)

Section Sorting.
Context {A : Type} (leb : A -> A -> bool).

Fixpoint insert (x : A) (l : list A) : list A :=
  match l with
  | [] => [x]
  | y :: l' => if leb x y then x :: y :: l' else y :: insert x l'
  end.

(** A stable ascending sort: an element goes in front of the first
    element it is not greater than, so equal keys keep their order.
    ([list.sort] is stable; numpy's default sort may order equal keys
    otherwise, and nothing below depends on the order of equal keys.) *)
Fixpoint stable_sort (l : list A) : list A :=
  match l with
  | [] => []
  | x :: l' => insert x (stable_sort l')
  end.

(** [list.sort(reverse=True)]: reverse, sort stably, reverse again. *)
Definition sort_reverse (l : list A) : list A :=
  rev (stable_sort (rev l)).
End Sorting.

(** [DataFrame.sort_values(by, ascending)] with the default
    [na_position="last"]: the rows whose key is not missing are sorted (for
    a descending sort: reversed, sorted ascending, reversed again) and the
    rows whose key is missing follow in their original order. *)
Definition sort_values {A K : Type} (key : A -> option K)
    (leb : K -> K -> bool) (ascending : bool) (df : list A) : list A :=
  let present (r : A) := match key r with Some _ => true | None => false end in
  let key_leb (r1 r2 : A) :=
    match key r1, key r2 with
    | Some k1, Some k2 => leb k1 k2
    | _, _ => true
    end in
  let non_nans := filter present df in
  let nans := filter (fun r => negb (present r)) df in
  (if ascending then stable_sort key_leb non_nans
   else sort_reverse key_leb non_nans) ++ nans.

(** The order a descending [sort_values] establishes between a row and
    the next one: keys do not increase, and no row with a key follows a
    row without one. *)
Definition desc_na_last {A K : Type} (key : A -> option K)
    (leb : K -> K -> bool) (a b : A) : Prop :=
  match key a, key b with
  | Some x, Some y => leb y x = true
  | _, None => True
  | None, Some _ => False
  end.

(** *** Slices *)

(** [l[:n]] for a Python integer [n]: a negative [n] counts from the end. *)
Definition slice_to {A : Type} (n : Z) (l : list A) : list A :=
  if (0 <=? n)%Z then firstn (Z.to_nat n) l
  else firstn (Z.to_nat (Z.of_nat (List.length l) + n)) l.

(** *** Strings *)

(** [str.isspace] on the characters below 256. *)
Definition is_space (c : ascii) : bool :=
  let n := nat_of_ascii c in
  ((9 <=? n) && (n <=? 13) || (28 <=? n) && (n <=? 32)
   || (n =? 133) || (n =? 160))%nat.

Fixpoint lstrip (s : string) : string :=
  match s with
  | EmptyString => EmptyString
  | String c s' => if is_space c then lstrip s' else s
  end.

Definition string_rev (s : string) : string :=
  string_of_list_ascii (rev (list_ascii_of_string s)).

Definition rstrip (s : string) : string :=
  string_rev (lstrip (string_rev s)).

(** [s.strip()] *)
Definition strip (s : string) : string := rstrip (lstrip s).

(** [s.replace(old, new)] for one-character [old] and [new]. *)
Fixpoint replace (old new : ascii) (s : string) : string :=
  match s with
  | EmptyString => EmptyString
  | String c s' =>
      String (if Ascii.eqb c old then new else c) (replace old new s')
  end.

(** [s.split(sep)[0]] for a one-character [sep]: the text before the first
    separator, the whole string when there is none. *)
Fixpoint split_head (sep : ascii) (s : string) : string :=
  match s with
  | EmptyString => EmptyString
  | String c s' =>
      if Ascii.eqb c sep then EmptyString else String c (split_head sep s')
  end.

(** *** Cell values, exceptions and process exit *)

(** What a cell of an object column, or [row.get], can hold. *)
Inductive pyval : Type :=
| PyNone
| PyNaN
| PyStr (s : string)
| PyNum (q : Q).

(** [pd.notna(val)] on a scalar. *)
Definition pd_notna (v : pyval) : bool :=
  match v with
  | PyNone | PyNaN => false
  | PyStr _ | PyNum _ => true
  end.

(** [isinstance(val, str)] *)
Definition is_str (v : pyval) : bool :=
  match v with PyStr _ => true | _ => false end.

Inductive exn : Type :=
| AttributeError
| TypeError.

Inductive result (A : Type) : Type :=
| Ok (a : A)
| Raise (e : exn).
Arguments Ok {A} a.
Arguments Raise {A} e.

Definition bind {A B : Type} (m : result A) (k : A -> result B) : result B :=
  match m with
  | Ok a => k a
  | Raise e => Raise e
  end.

Notation "x <- m ;; k" := (bind m (fun x => k))
  (at level 61, m at next level, right associativity).

(** [a and b] evaluates [b] only when [a] is true. *)
Definition and_then (a : bool) (b : result bool) : result bool :=
  if a then b else Ok false.

(** [val.strip()]: only a [str] has the method. *)
Definition val_strip (v : pyval) : result string :=
  match v with
  | PyStr s => Ok (strip s)
  | _ => Raise AttributeError
  end.

(** [val.strip().replace(old, new)] *)
Definition val_strip_replace (old new : ascii) (v : pyval) : result string :=
  s <- val_strip v ;; Ok (replace old new s).

(** The outcome of a stage that may call [sys.exit]: a returned value, or
    what was printed last and the exit code. *)
Inductive outcome (A : Type) : Type :=
| Return (a : A)
| SysExit (printed : string) (code : Z).
Arguments Return {A} a.
Arguments SysExit {A} printed code.

End Py.

(** ** The scoring stage: [task1_trainer_scout.py] *)

Module Task1.
Import Py.
Local Open Scope string_scope.

Definition MIN_RESPONSES : nat := 3.

Definition RATING_COLS : list string :=
  [ "1.3_The trainer’s teaching style helped me to stay concentrated.*";
    "1.4_The trainer offered the opportunity to participate.*";
    "2.8_The trainer was helpful in explaining how to put theory into practice.*";
    "v1_1.2_I perceived the trainer as concentrated.*";
    "v2_1.1_I perceived the trainer as motivated.*";
    "v2_1.2_ The trainer was very clear in their explanations.*" ].

Definition QUOTE_COLS : list string :=
  [ "3.12_What did you like most about their training style?*";
    "3.13_Could you please share a highlight from the training? What stood out to you as particularly enjoyable or beneficial?*";
    "2.6_Did the trainer establish good rapport with the learners? Did they make you feel at ease to ask question, interact, and engage with the training? Give details.*" ].

(** *** The cleaned table *)

(** A row of the frame that [load_and_clean] returns: the identifier it
    assigned, the trainer, the parsed date ([None] is NaT), the rating
    columns after numeric coercion, and the remaining cells as [row.get]
    sees them. *)
Record row : Type := {
  row_id : string;
  Trainer : string;
  date : option Z;
  rating : string -> float;
  text : string -> pyval
}.

Definition DataFrame : Type := list row.

(** [df[df["Trainer"] == trainer]] *)
Definition rows_of (df : DataFrame) (trainer : string) : DataFrame :=
  filter (fun r => String.eqb (Trainer r) trainer) df.

(** [df.groupby("Trainer")]: one group per distinct trainer, groups in the
    order of the sorted keys, rows of a group in frame order.  (A row
    without a trainer is in no group; the table here has none.) *)
Definition groupby_Trainer (df : DataFrame) : list (string * DataFrame) :=
  map (fun k => (k, rows_of df k))
      (stable_sort String.leb (nodup string_dec (map Trainer df))).

(** *** Scoring a group *)

(** [group[RATING_COLS].mean()] *)
Definition rating_means (group : DataFrame) : list float :=
  map (fun col => nanmean (map (fun r => rating r col) group)) RATING_COLS.

(** [group[RATING_COLS].mean().mean()] *)
Definition mean_of_means (group : DataFrame) : float :=
  nanmean (rating_means group).

(** The dictionary appended to [results] for one trainer. *)
Record result_row : Type := {
  trainer : string;
  n_responses : nat;
  overall_score : float;
  early_avg : float;
  late_avg : float;
  improvement : float;
  raw_combined : float
}.

(** The body of the loop over the groups, after the threshold test. *)
Definition score_group (name : string) (group : DataFrame) : result_row :=
  let n := List.length group in
  let overall := mean_of_means group in
  let group_sorted := sort_values date Z.leb true group in
  let mid := (List.length group_sorted / 2)%nat in
  let '(early_scores, late_scores, delta) :=
    if (0 <? mid)%nat then
      let early := mean_of_means (firstn mid group_sorted) in
      let late := mean_of_means (skipn mid group_sorted) in
      (early, late, fsub late early)
    else (overall, overall, Some 0)
  in
  {| trainer := name;
     n_responses := n;
     overall_score := round2 overall;
     early_avg := round2 early_scores;
     late_avg := round2 late_scores;
     improvement := round2 delta;
     raw_combined := overall |}.

(** The loop over the groups: a group below the threshold is skipped. *)
Definition results (df : DataFrame) : list result_row :=
  flat_map
    (fun g : string * DataFrame =>
       let (name, group) := g in
       if (List.length group <? MIN_RESPONSES)%nat then []
       else [score_group name group])
    (groupby_Trainer df).

(** A row of [scores_df] once the [trainer_score] column is added. *)
Record score_row : Type := {
  stats : result_row;
  trainer_score : float
}.

(** [(0.6 * overall_score + 0.4 * late_avg).round(2)] *)
Definition composite (r : result_row) : float :=
  round2 (fadd (fmul (Some (6 # 10)) (overall_score r))
               (fmul (Some (4 # 10)) (late_avg r))).

Definition add_trainer_score (r : result_row) : score_row :=
  {| stats := r; trainer_score := composite r |}.

Definition no_trainers_message : string :=
  "⚠ No trainers met the minimum response threshold!".

Definition compute_trainer_scores (df : DataFrame) : outcome (list score_row) :=
  let scores_df := results df in
  if (List.length scores_df =? 0)%nat then SysExit no_trainers_message 1
  else
    Return (sort_values trainer_score Qle_bool false
              (map add_trainer_score scores_df)).

(** *** Evidence quotes *)

(** The dictionary appended to [candidates]. *)
Record candidate : Type := {
  cand_row_id : string;
  cand_quote : string;
  cand_source_column : string;
  cand_length : nat
}.

Definition newline : ascii := "010"%char.
Definition space : ascii := " "%char.
Definition underscore : ascii := "_"%char.

(** A loop that appends to a list and stops at the first exception. *)
Fixpoint for_each {A B : Type} (f : A -> result (list B)) (l : list A)
    : result (list B) :=
  match l with
  | [] => Ok []
  | x :: l' => ys <- f x ;; zs <- for_each f l' ;; Ok (ys ++ zs)%list
  end.

(** The body of the inner loop of [extract_best_quotes] for one cell. *)
Definition scan_cell (r : row) (col : string) : result (list candidate) :=
  let val := text r col in
  accept <- and_then (pd_notna val)
              (and_then (is_str val)
                 (s <- val_strip val ;; Ok (20 <? String.length s)%nat)) ;;
  if accept : bool then
    q <- val_strip_replace newline space val ;;
    s <- val_strip val ;;
    Ok [ {| cand_row_id := row_id r;
            cand_quote := q;
            cand_source_column := split_head underscore col;
            cand_length := String.length s |} ]
  else Ok [].

Definition length_leb (a b : candidate) : bool :=
  (cand_length a <=? cand_length b)%nat.

Definition extract_best_quotes (df : DataFrame) (name : string)
    (n_quotes : Z) : result (list candidate) :=
  let group := rows_of df name in
  candidates <- for_each (fun r => for_each (scan_cell r) QUOTE_COLS) group ;;
  Ok (slice_to n_quotes (sort_reverse length_leb candidates)).

End Task1.

(** ** Reference notions for the scoring stage *)

Module ScoutSpec.
Import Py Task1.

(** The order of the ranking between an entry and the next one: the score
    does not increase, and an entry whose score is NaN is followed only by
    such entries. *)
Definition score_not_below (a b : score_row) : Prop :=
  match trainer_score a, trainer_score b with
  | Some x, Some y => y <= x
  | _, None => True
  | None, Some _ => False
  end.

(** The values of one rating column over a set of rows. *)
Definition column (rows : DataFrame) (col : string) : list float :=
  map (fun r => rating r col) rows.

(** The rating columns with at least one numeric value in [rows]. *)
Definition observed_columns (rows : DataFrame) : list string :=
  filter (fun col => existsb notna (column rows col)) RATING_COLS.

(** The mean of the numeric values of a column. *)
Definition column_mean (rows : DataFrame) (col : string) : Q :=
  Qsum (observed (column rows col))
  / inject_Z (Z.of_nat (List.length (observed (column rows col)))).

(** The mean, over the observed columns only, of the column means; NaN
    when no column is observed. *)
Definition mean_over_observed_columns (rows : DataFrame) : float :=
  match observed_columns rows with
  | [] => None
  | cols =>
      Some (Qsum (map (column_mean rows) cols)
            / inject_Z (Z.of_nat (List.length cols)))
  end.

(** No rating of the rows is missing. *)
Definition fully_rated (rows : DataFrame) : Prop :=
  forall r col, In r rows -> In col RATING_COLS -> rating r col <> None.

(** The numeric value of a rating, 0 for a missing one. *)
Definition rating_value (r : row) (col : string) : Q :=
  match rating r col with
  | Some q => q
  | None => 0
  end.

(** The sum of all ratings of the rows, column by column. *)
Definition rating_total (rows : DataFrame) : Q :=
  Qsum (map (fun col => Qsum (map (fun r => rating_value r col) rows))
            RATING_COLS).

(** The trainer has exactly four rows; in time order the first two have
    mean of column means [early] and the last two [late]. *)
Definition two_and_two (df : DataFrame) (name : string) (early late : Q)
    : Prop :=
  let group_sorted := sort_values date Z.leb true (rows_of df name) in
  List.length (rows_of df name) = 4%nat /\
  feq (mean_of_means (firstn 2 group_sorted)) (Some early) /\
  feq (mean_of_means (skipn 2 group_sorted)) (Some late).

End ScoutSpec.

(** ** Reference notions for the evidence quotes *)

Module QuoteSpec.
Import Py Task1.

(** The candidates one cell contributes: a [str] whose trimmed text is
    longer than 20 characters gives one, anything else none. *)
Definition cell_candidates (r : row) (col : string) : list candidate :=
  match text r col with
  | PyStr s =>
      if (20 <? String.length (strip s))%nat then
        [ {| cand_row_id := row_id r;
             cand_quote := replace newline space (strip s);
             cand_source_column := split_head underscore col;
             cand_length := String.length (strip s) |} ]
      else []
  | _ => []
  end.

(** All the candidates of a set of rows, in scan order. *)
Definition all_candidates (rows : DataFrame) : list candidate :=
  flat_map (fun r => flat_map (cell_candidates r) QUOTE_COLS) rows.

(** The candidate [c] was taken from a [str] cell of one of [rows]. *)
Definition quoted_from (rows : DataFrame) (c : candidate) : Prop :=
  exists r col s,
    In r rows /\ In col QUOTE_COLS /\ text r col = PyStr s /\
    cand_row_id c = row_id r /\
    cand_quote c = replace newline space (strip s) /\
    (20 < String.length (strip s))%nat.

(** No free-text cell of [rows] holds a [str] with more than 20 characters
    once trimmed. *)
Definition no_qualifying_text (rows : DataFrame) : Prop :=
  forall r col s,
    In r rows -> In col QUOTE_COLS -> text r col = PyStr s ->
    (String.length (strip s) <= 20)%nat.

End QuoteSpec.


(** ** The outreach stage: [task2_outreach.py] *)

Module Task2.
Import Py.
Local Open Scope string_scope.

(** An element of ["evidence_quotes"]. *)
Record evidence : Type := {
  ev_row_id : string;
  ev_quote : string
}.

(** An element of the list read from the results file. *)
Record ranked_result : Type := {
  trainer_name : string;
  n_responses : Z;
  trainer_score : float;
  overall_avg : float;
  improvement : float;
  evidence_quotes : list evidence;
  case_study_angle : string
}.

(** The dictionary that [generate_outreach_draft] returns. *)
Record draft : Type := {
  draft_trainer_name : string;
  trainer_display_name : string;
  subject : string;
  body : string;
  draft_trainer_score : float;
  draft_n_responses : Z;
  draft_case_study_angle : string;
  generated_at : string;
  status : string
}.

Definition at_sign : ascii := "@"%char.
Definition dot : ascii := "."%char.
Definition space_char : ascii := " "%char.
Definition dquote : string := String "034"%char EmptyString.

Definition subject_line : string :=
  "Your learners love your training — would you share your story?".

(** The fixed text of the message, cut where a value is inserted. *)
Definition body_greeting : string := "Hi ".

Definition body_intro : string :=
  ",

I hope this message finds you well!

We've been reviewing learner feedback across our trainer network, and your name stood out. Your training sessions have received consistently strong feedback, with an overall rating of ".

Definition body_across : string := "/10 across ".

Definition body_before_quote : string :=
  " responses.

Here's what one of your learners said:

  " ++ dquote.

Definition body_after_quote : string :=
  dquote ++ "

We'd love to feature your journey in a short case study to inspire other trainers in our network. This would involve either:

  • A short testimonial quote (2–3 sentences, we can draft it for your approval), or
  • A 15–20 minute chat (or written Q&A) for a fuller case study

Would you be open to either of these? Happy to work around your schedule.

Thanks for the great work you do!

Best regards,
The Camphire Team".

Section Draft.
(** [str.title], the text an f-string gives a number, and the clock are
    taken as given. *)
Variable title : string -> string.
Variable str_float : float -> string.
Variable str_int : Z -> string.
Variable now_isoformat : string.

(** [trainer["trainer_name"].split("@")[0].replace(".", " ").title()] *)
Definition display_name (t : ranked_result) : string :=
  title (replace dot space_char (split_head at_sign (trainer_name t))).

(** The first evidence quote, or the literal ["N/A"]. *)
Definition selected_quote (t : ranked_result) : string :=
  match evidence_quotes t with
  | e :: _ => ev_quote e
  | [] => "N/A"
  end.

(** The value of [quote] when the body is rendered. *)
Definition embedded_quote (t : ranked_result) : string :=
  let quote := selected_quote t in
  if (200 <? String.length quote)%nat then substring 0 197 quote ++ "..."
  else quote.

(** The text of the body before the quote. *)
Definition body_head (t : ranked_result) : string :=
  body_greeting ++ display_name t ++ body_intro
    ++ str_float (overall_avg t) ++ body_across
    ++ str_int (n_responses t) ++ body_before_quote.

Definition generate_outreach_draft (t : ranked_result) : draft :=
  {| draft_trainer_name := trainer_name t;
     trainer_display_name := display_name t;
     subject := subject_line;
     body := body_head t ++ embedded_quote t ++ body_after_quote;
     draft_trainer_score := trainer_score t;
     draft_n_responses := n_responses t;
     draft_case_study_angle := case_study_angle t;
     generated_at := now_isoformat;
     status := "draft" |}.
End Draft.

End Task2.

(** ** Sample tables *)

Module Samples.
Import Py Task1.
Local Open Scope string_scope.

(** A completed response whose six ratings all hold [r] and whose text
    cells are empty. *)
Definition response (id name : string) (minute : Z) (r : float) : row :=
  {| row_id := id;
     Trainer := name;
     date := Some minute;
     rating := fun _ => r;
     text := fun _ => PyNaN |}.

(** Trainer B: four responses, rated 6, 6, 9 and 9 in time order. *)
Definition df_B : DataFrame :=
  [ response "ROW-001" "B" 10 (Some 6);
    response "ROW-002" "B" 20 (Some 6);
    response "ROW-003" "B" 30 (Some 9);
    response "ROW-004" "B" 40 (Some 9) ].

(** Trainer B again, the second response without any numeric rating. *)
Definition df_B_gap : DataFrame :=
  [ response "ROW-001" "B" 10 (Some 6);
    response "ROW-002" "B" 20 nan;
    response "ROW-003" "B" 30 (Some 9);
    response "ROW-004" "B" 40 (Some 9) ].

(** Two trainers with three responses each; no rating of the second one
    is numeric. *)
Definition df_unrated : DataFrame :=
  [ response "ROW-001" "a" 10 (Some 8);
    response "ROW-002" "b" 20 nan;
    response "ROW-003" "a" 30 (Some 8);
    response "ROW-004" "b" 40 nan;
    response "ROW-005" "a" 50 (Some 8);
    response "ROW-006" "b" 60 nan ].

(** Two responses only: below the threshold. *)
Definition df_two : DataFrame :=
  [ response "ROW-001" "c" 10 (Some 7);
    response "ROW-002" "c" 20 (Some 9) ].

(** Trainer B with four responses and trainer c with two. *)
Definition df_mixed : DataFrame := (df_B ++ df_two)%list.

(** A response rated [r] in the first rating column only. *)
Definition first_column_response (id name : string) (minute : Z) (r : float)
    : row :=
  {| row_id := id;
     Trainer := name;
     date := Some minute;
     rating := fun col => if String.eqb col (hd "" RATING_COLS) then r else nan;
     text := fun _ => PyNaN |}.

(** Trainer x is rated in one column, trainer y in all six. *)
Definition df_columns : DataFrame :=
  [ first_column_response "ROW-001" "x" 10 (Some 4);
    first_column_response "ROW-002" "x" 20 (Some 4);
    first_column_response "ROW-003" "x" 30 (Some 4);
    response "ROW-004" "y" 40 (Some 9);
    response "ROW-005" "y" 50 (Some 9);
    response "ROW-006" "y" 60 (Some 9) ].

(** A response with the given three free-text cells. *)
Definition worded (id name : string) (c1 c2 c3 : pyval) : row :=
  {| row_id := id;
     Trainer := name;
     date := None;
     rating := fun _ => nan;
     text := fun col =>
       if String.eqb col (nth 0 QUOTE_COLS "") then c1
       else if String.eqb col (nth 1 QUOTE_COLS "") then c2
       else if String.eqb col (nth 2 QUOTE_COLS "") then c3
       else PyNone |}.

(** Text cells of every kind: long and short strings, a number, a blank
    cell. *)
Definition df_quotes : DataFrame :=
  [ worded "ROW-001" "q"
      (PyStr "  Clear and patient explanations  ")
      (PyNum 7)
      PyNaN;
    worded "ROW-002" "q"
      (PyStr "too short")
      (PyStr "She made every session lively and practical.")
      PyNone;
    worded "ROW-003" "other"
      (PyStr "A quote that belongs to somebody else entirely.")
      PyNaN
      PyNaN ].

(** Two entries of a results file: one with a short first quote, one with
    a first quote of 227 characters. *)
Definition short_entry : Task2.ranked_result :=
  {| Task2.trainer_name := "ada.lovelace@example.org";
     Task2.n_responses := 4;
     Task2.trainer_score := Some (81 # 10);
     Task2.overall_avg := Some (75 # 10);
     Task2.improvement := Some 3;
     Task2.evidence_quotes :=
       [ {| Task2.ev_row_id := "ROW-002";
            Task2.ev_quote := "She made every session lively and practical." |} ];
     Task2.case_study_angle := "growth journey" |}.

Definition long_text : string :=
  "The trainer explained every concept twice, once with the theory and once with a worked example from our own projects, and then stayed after the session to answer the questions that we had not dared to ask in front of everybody.".

Definition long_entry : Task2.ranked_result :=
  {| Task2.trainer_name := "grace.hopper@example.org";
     Task2.n_responses := 5;
     Task2.trainer_score := Some 9;
     Task2.overall_avg := Some 9;
     Task2.improvement := Some 0;
     Task2.evidence_quotes :=
       [ {| Task2.ev_row_id := "ROW-007"; Task2.ev_quote := long_text |} ];
     Task2.case_study_angle := "best practices" |}.

End Samples.

(** ** More Python and pandas primitives *)

Module PyMore.
Import Py.
Local Open Scope string_scope.

(** The order an ascending [sort_values] establishes between a row and
    the next one: keys do not decrease, and no row with a key follows a
    row without one. *)
Definition asc_na_last {A K : Type} (key : A -> option K)
    (leb : K -> K -> bool) (a b : A) : Prop :=
  match key a, key b with
  | Some x, Some y => leb x y = true
  | _, None => True
  | None, Some _ => False
  end.

(** The string is empty or begins with a character that is not
    whitespace. *)
Definition starts_clean (s : string) : Prop :=
  match s with
  | EmptyString => True
  | String c _ => is_space c = false
  end.

(** The character occurs in the string. *)
Definition occurs (c : ascii) (s : string) : Prop :=
  In c (list_ascii_of_string s).

(** [x > y] on floats: false as soon as one side is NaN. *)
Definition fgt (x y : float) : bool :=
  match x, y with
  | Some a, Some b => negb (Qle_bool a b)
  | _, _ => false
  end.

(** [s * n] *)
Fixpoint repeat_string (s : string) (n : nat) : string :=
  match n with
  | O => EmptyString
  | S n' => s ++ repeat_string s n'
  end.

(** [str.lower] on the characters below 256: the letters A to Z and the
    capital letters from 192 to 222, the multiplication sign apart, move
    up by 32. *)
Definition lower_char (c : ascii) : ascii :=
  let n := nat_of_ascii c in
  if ((65 <=? n) && (n <=? 90)
      || (192 <=? n) && (n <=? 222) && negb (n =? 215))%nat
  then ascii_of_nat (n + 32)
  else c.

Fixpoint lower (s : string) : string :=
  match s with
  | EmptyString => EmptyString
  | String c s' => String (lower_char c) (lower s')
  end.

(** [str(n)] for a natural number. *)
Definition str_nat (n : nat) : string :=
  DecimalString.NilEmpty.string_of_uint (Nat.to_uint n).

(** [s.zfill(width)]: zeros are put in front, after a leading sign. *)
Definition zfill (width : nat) (s : string) : string :=
  let fill := repeat_string "0" (width - String.length s) in
  match s with
  | EmptyString => fill
  | String c rest =>
      if (Ascii.eqb c "+" || Ascii.eqb c "-")%bool
      then String c (fill ++ rest)
      else fill ++ s
  end.

End PyMore.


(** ** Further notions for the scoring stage *)

Module ScoutMoreSpec.
Import Py Task1.

(** The trainers of a ranking, in rank order. *)
Definition ranked_trainers (scores : list score_row) : list string :=
  map (fun s => trainer (stats s)) scores.

(** The number of rows of a trainer in the cleaned table. *)
Definition response_count (df : DataFrame) (name : string) : nat :=
  List.length (rows_of df name).

(** A float that is NaN or lies between [lo] and [hi]. *)
Definition within (lo hi : Q) (x : float) : Prop :=
  match x with
  | Some q => lo <= q <= hi
  | None => True
  end.

(** Every numeric rating of the rows lies between [lo] and [hi]. *)
Definition ratings_within (lo hi : Q) (rows : DataFrame) : Prop :=
  forall r col q,
    In r rows -> In col RATING_COLS -> rating r col = Some q ->
    lo <= q <= hi.


(** Row [a] is not dated after row [b]; a row without date counts as
    later than every dated row. *)
Definition not_later (a b : row) : Prop :=
  match date a, date b with
  | Some x, Some y => (x <= y)%Z
  | _, None => True
  | None, Some _ => False
  end.

(** The early and the late half of a trainer's rows, as [score_group]
    cuts them. *)
Definition early_half (group : DataFrame) : DataFrame :=
  let group_sorted := sort_values date Z.leb true group in
  firstn (List.length group_sorted / 2) group_sorted.

Definition late_half (group : DataFrame) : DataFrame :=
  let group_sorted := sort_values date Z.leb true group in
  skipn (List.length group_sorted / 2) group_sorted.

(** The score [x] is not below the score [y]; NaN counts as below every
    number. *)
Definition float_not_below (x y : float) : Prop :=
  match x, y with
  | Some a, Some b => b <= a
  | _, None => True
  | None, Some _ => False
  end.

End ScoutMoreSpec.


(** ** The record loader: [load_and_clean] *)

Module Loader.
Import Py PyMore Task1.
Local Open Scope string_scope.

(** A row of the frame [pd.read_csv] returns: the cells of the columns
    ["Creation Date"], ["completed"] and ["Trainer"], and the other cells
    by column label. *)
Record raw_row : Type := {
  raw_creation_date : pyval;
  raw_completed : pyval;
  raw_Trainer : string;
  raw_cell : string -> pyval
}.

(** ["ROW-" + str(i + 1).zfill(3)] *)
Definition row_id_of (i : nat) : string :=
  "ROW-" ++ zfill 3 (str_nat (i + 1)).

(** One element of [df["completed"].str.strip().str.lower() == "yes"]:
    a cell that is not a [str] gives NaN, which is not equal to
    ["yes"]. *)
Definition completed_yes (v : pyval) : bool :=
  match v with
  | PyStr s => String.eqb (lower (strip s)) "yes"
  | _ => false
  end.

(** The [.str] accessor exists on a column of strings (an empty table
    has such columns); on a column in which no cell is a string, read as
    numbers, it raises [AttributeError]. *)
Definition has_str_accessor (cells : list pyval) : bool :=
  ((List.length cells =? 0)%nat || existsb is_str cells)%bool.

(** A float as a cell value. *)
Definition float_cell (x : float) : pyval :=
  match x with
  | Some q => PyNum q
  | None => PyNaN
  end.

Section Parsing.
(** [pd.to_datetime(..., format=..., errors="coerce")] and
    [pd.to_numeric(..., errors="coerce")] work cell by cell; what they
    make of one cell is taken as given. *)
Variable to_datetime : pyval -> option Z.
Variable to_numeric : pyval -> float.

(** A kept row after the date and the rating columns are coerced. *)
Definition clean (id : string) (raw : raw_row) : row :=
  {| row_id := id;
     Trainer := raw_Trainer raw;
     date := to_datetime (raw_creation_date raw);
     rating := fun col => to_numeric (raw_cell raw col);
     text := fun col =>
       if in_dec string_dec col RATING_COLS
       then float_cell (to_numeric (raw_cell raw col))
       else raw_cell raw col |}.

(** The frame that [load_and_clean] returns; what it prints is left
    out.  The identifiers are given to all rows, then the rows that are
    not completed are dropped. *)
Definition load_and_clean (raws : list raw_row) : result DataFrame :=
  let ids := map row_id_of (seq 0 (List.length raws)) in
  let df := combine ids raws in
  if has_str_accessor (map raw_completed raws) then
    Ok (map (fun ir => clean (fst ir) (snd ir))
            (filter (fun ir => completed_yes (raw_completed (snd ir))) df))
  else Raise AttributeError.
End Parsing.

End Loader.


(** ** Reference notions for the loader *)

Module LoaderSpec.
Import Py PyMore Task1 Loader.

(** The number of completed rows of a trainer in the file. *)
Definition completed_count (raws : list raw_row) (name : string) : nat :=
  List.length
    (filter (fun raw => (completed_yes (raw_completed raw)
                         && String.eqb (raw_Trainer raw) name)%bool)
            raws).

(** The string begins with a character other than the digit 0 and the
    signs. *)
Definition starts_with_nonzero (s : string) : Prop :=
  match s with
  | EmptyString => False
  | String c _ => c <> "0"%char /\ c <> "+"%char /\ c <> "-"%char
  end.

End LoaderSpec.


(** ** The result assembler: [generate_case_study_angle], [build_results]
    and [print_console_results] *)

Module Assemble.
Import Py PyMore Task1.
Local Open Scope string_scope.

Definition TOP_N : Z := 2.

(** An element of ["evidence_quotes"] in a result. *)
Record quote_ref : Type := {
  ref_row_id : string;
  ref_quote : string
}.

(** The dictionary [build_results] appends for one trainer. *)
Record final_result : Type := {
  out_rank : nat;
  out_trainer_name : string;
  out_n_responses : nat;
  out_trainer_score : float;
  out_overall_avg : float;
  out_improvement : float;
  out_evidence_quotes : list quote_ref;
  out_case_study_angle : string
}.

Section Formatting.
(** The text an f-string gives a float and an integer of a row of
    [scores_df] is taken as given. *)
Variable str_float : float -> string.
Variable str_int : nat -> string.

Definition growth_angle (row : score_row) : string :=
  "Strong overall performance (avg "
    ++ str_float (overall_score (stats row)) ++ "/10 across "
    ++ str_int (n_responses (stats row)) ++ " reviews) "
    ++ "with visible improvement over time (+"
    ++ str_float (improvement (stats row)) ++ " pts). "
    ++ "Great candidate for a 'growth journey' testimonial.".

Definition best_practices_angle (row : score_row) : string :=
  "Consistently high performer (avg "
    ++ str_float (overall_score (stats row)) ++ "/10 across "
    ++ str_int (n_responses (stats row)) ++ " reviews). "
    ++ "Ideal for a 'best practices' case study.".

(** [generate_case_study_angle(trainer, score_row)]; the first argument
    is not used by the function. *)
Definition generate_case_study_angle (name : string) (row : score_row)
    : string :=
  if fgt (improvement (stats row)) (Some 0) then growth_angle row
  else best_practices_angle row.

(** The loop of [build_results]; [results] is the list built so far. *)
Fixpoint build_loop (df : DataFrame) (rows : list score_row)
    (results : list final_result) : result (list final_result) :=
  match rows with
  | [] => Ok results
  | row :: rest =>
      let name := trainer (stats row) in
      quotes <- extract_best_quotes df name 2 ;;
      let angle := generate_case_study_angle name row in
      build_loop df rest
        (results ++
         [ {| out_rank := List.length results + 1;
              out_trainer_name := name;
              out_n_responses := n_responses (stats row);
              out_trainer_score := trainer_score row;
              out_overall_avg := overall_score (stats row);
              out_improvement := improvement (stats row);
              out_evidence_quotes :=
                map (fun q => {| ref_row_id := cand_row_id q;
                                 ref_quote := cand_quote q |}) quotes;
              out_case_study_angle := angle |} ])%list
  end.

(** [scores_df.head(top_n)] keeps the first [top_n] rows, and for a
    negative [top_n] all rows but the last [-top_n]. *)
Definition build_results (df : DataFrame) (scores_df : list score_row)
    (top_n : Z) : result (list final_result) :=
  build_loop df (slice_to top_n scores_df) [].

(** The quote as [print_console_results] shows it. *)
Definition console_quote (quote : string) : string :=
  if (120 <? String.length quote)%nat then substring 0 120 quote ++ "..."
  else quote.

Definition rule : string := repeat_string "=" 70.

Definition newline_string : string := String "010"%char EmptyString.

(** The text an f-string gives the Python numbers of a result. *)
Variable console_float : float -> string.
Variable console_int : nat -> string.

(** The sign shown in front of an improvement. *)
Definition sign_prefix (x : float) : string :=
  if fge x (Some 0) then "+" else "".

(** The lines [print_console_results] prints for one result. *)
Definition rank_line (r : final_result) : string :=
  newline_string ++ "#" ++ console_int (out_rank r) ++ "  "
    ++ out_trainer_name r.

Definition score_line (r : final_result) : string :=
  "    Score: " ++ console_float (out_trainer_score r)
    ++ "  |  Avg: " ++ console_float (out_overall_avg r)
    ++ "/10  |  Improvement: " ++ sign_prefix (out_improvement r)
    ++ console_float (out_improvement r)
    ++ "  |  Responses: " ++ console_int (out_n_responses r).

Definition quote_line (q : quote_ref) : string :=
  "      [" ++ ref_row_id q ++ "] " ++ Task2.dquote
    ++ console_quote (ref_quote q) ++ Task2.dquote.

Definition angle_line (r : final_result) : string :=
  "    Angle: " ++ out_case_study_angle r.

Definition console_block (r : final_result) : list string :=
  ([ rank_line r; score_line r; "    Quotes:" ]
   ++ map quote_line (out_evidence_quotes r)
   ++ [ angle_line r ])%list.

Definition banner : string :=
  "🏆  TOP 2 TRAINERS — MOST IMPROVED / BEST PERFORMERS".

(** What [print_console_results] prints, one string per call of
    [print]. *)
Definition rule_line : string := newline_string ++ rule.

Definition print_console_results (results : list final_result)
    : list string :=
  ([ rule_line; banner; rule ]
   ++ flat_map console_block results
   ++ [ rule_line ])%list.
End Formatting.

(** The file written by [save_json] and read back by [load_results]
    holds the same values; the outreach stage reads these keys of an
    entry. *)
Definition handed_over (r : final_result) : Task2.ranked_result :=
  {| Task2.trainer_name := out_trainer_name r;
     Task2.n_responses := Z.of_nat (out_n_responses r);
     Task2.trainer_score := out_trainer_score r;
     Task2.overall_avg := out_overall_avg r;
     Task2.improvement := out_improvement r;
     Task2.evidence_quotes :=
       map (fun q => {| Task2.ev_row_id := ref_row_id q;
                        Task2.ev_quote := ref_quote q |})
           (out_evidence_quotes r);
     Task2.case_study_angle := out_case_study_angle r |}.

End Assemble.


(** ** Reference notions for the result assembler *)

Module AssembleSpec.
Import Py PyMore Task1 QuoteSpec Assemble.
Local Open Scope string_scope.

(** The two best quotes of a trainer, as [extract_best_quotes] orders
    them. *)
Definition two_best (df : DataFrame) (name : string) : list candidate :=
  slice_to 2 (sort_reverse length_leb (all_candidates (rows_of df name))).

(** A quote reduced to identifier and text. *)
Definition reference (c : candidate) : quote_ref :=
  {| ref_row_id := cand_row_id c; ref_quote := cand_quote c |}.

Section Formatting.
Variable str_float : float -> string.
Variable str_int : nat -> string.

(** The result made from a row of the ranking at a given rank. *)
Definition result_at (df : DataFrame) (rank : nat) (row : score_row)
    : final_result :=
  {| out_rank := rank;
     out_trainer_name := trainer (stats row);
     out_n_responses := n_responses (stats row);
     out_trainer_score := trainer_score row;
     out_overall_avg := overall_score (stats row);
     out_improvement := improvement (stats row);
     out_evidence_quotes := map reference (two_best df (trainer (stats row)));
     out_case_study_angle :=
       generate_case_study_angle str_float str_int
         (trainer (stats row)) row |}.

(** The results of the rows, the first one at rank [k + 1]. *)
Fixpoint results_from (df : DataFrame) (k : nat) (rows : list score_row)
    : list final_result :=
  match rows with
  | [] => []
  | row :: rest => result_at df (k + 1) row :: results_from df (S k) rest
  end.
End Formatting.

(** The text of the first quote of a trainer, or ["N/A"]. *)
Definition first_quote_or_na (df : DataFrame) (name : string) : string :=
  match two_best df name with
  | c :: _ => cand_quote c
  | [] => "N/A"
  end.

End AssembleSpec.


(** ** More sample tables *)

Module MoreSamples.
Import Py PyMore Task1 Loader.
Local Open Scope string_scope.

(** A row of a file: the completion cell, the trainer, and one number in
    every other cell. *)
Definition filed (completed : pyval) (name : string) (r : Q) : raw_row :=
  {| raw_creation_date := PyNaN;
     raw_completed := completed;
     raw_Trainer := name;
     raw_cell := fun _ => PyNum r |}.

(** Trainer a has four rows, three of them completed; trainer b has two
    rows, one of them completed. *)
Definition file_rows : list raw_row :=
  [ filed (PyStr "yes") "a" 7;
    filed (PyStr " Yes ") "a" 8;
    filed (PyStr "no") "a" 1;
    filed (PyStr "yes") "b" 5;
    filed (PyStr "YES") "a" 9;
    filed PyNaN "b" 5 ].

(** A parser that knows no date, and one that reads numbers only. *)
Definition no_date (v : pyval) : option Z := None.

Definition number_only (v : pyval) : float :=
  match v with
  | PyNum q => Some q
  | _ => None
  end.

(** A result with a short and a long evidence quote. *)
Definition sample_result : Assemble.final_result :=
  {| Assemble.out_rank := 1;
     Assemble.out_trainer_name := "grace.hopper@example.org";
     Assemble.out_n_responses := 5;
     Assemble.out_trainer_score := Some 9;
     Assemble.out_overall_avg := Some 9;
     Assemble.out_improvement := Some 0;
     Assemble.out_evidence_quotes :=
       [ {| Assemble.ref_row_id := "ROW-007";
            Assemble.ref_quote := Samples.long_text |};
         {| Assemble.ref_row_id := "ROW-009";
            Assemble.ref_quote :=
              "She made every session lively and practical." |} ];
     Assemble.out_case_study_angle := "best practices" |}.

End MoreSamples.


(** ** Facts about the primitives *)

Module PyFacts.
Import Py.

(** *** Sorted lists *)

Section SortedLists.
Context {A : Type}.

Lemma Sorted_snoc (R : A -> A -> Prop) (l : list A) (x : A) :
  Sorted R l ->
  (forall y, last l x = y -> l <> [] -> R y x) ->
  Sorted R (l ++ [x]).
Proof.
  induction l as [|a l IH]; intros Hs Hlast; simpl.
  - repeat constructor.
  - apply Sorted_inv in Hs. destruct Hs as [Hs Hhd].
    constructor.
    + apply IH; [exact Hs|].
      intros y Hy Hne. apply Hlast; [|discriminate].
      destruct l; [contradiction|exact Hy].
    + destruct l as [|b l]; simpl.
      * constructor. apply Hlast; [reflexivity|discriminate].
      * constructor. apply HdRel_inv in Hhd. exact Hhd.
Qed.

Lemma Sorted_app (R : A -> A -> Prop) (l1 l2 : list A) :
  Sorted R l1 -> Sorted R l2 ->
  (forall x y, In x l1 -> In y l2 -> R x y) ->
  Sorted R (l1 ++ l2).
Proof.
  induction l1 as [|a l1 IH]; intros H1 H2 Hx; simpl; [exact H2|].
  apply Sorted_inv in H1. destruct H1 as [H1 Hhd].
  constructor.
  - apply IH; auto. intros x y Hi Hj. apply Hx; [right|]; assumption.
  - destruct l1 as [|b l1]; simpl.
    + destruct l2 as [|c l2]; constructor.
      apply Hx; left; reflexivity.
    + constructor. apply HdRel_inv in Hhd. exact Hhd.
Qed.

Lemma Sorted_rev (R : A -> A -> Prop) (l : list A) :
  Sorted R l -> Sorted (fun a b => R b a) (rev l).
Proof.
  induction l as [|a l IH]; intros Hs; simpl; [constructor|].
  apply Sorted_inv in Hs. destruct Hs as [Hs Hhd].
  apply Sorted_snoc; [apply IH; exact Hs|].
  intros y Hy Hne.
  destruct l as [|b l]; [exfalso; apply Hne; reflexivity|].
  apply HdRel_inv in Hhd.
  simpl in Hy. rewrite last_last in Hy. subst y. exact Hhd.
Qed.

Lemma Sorted_weaken (P R : A -> A -> Prop) (Q : A -> Prop) (l : list A) :
  (forall a b, Q a -> Q b -> P a b -> R a b) ->
  Forall Q l -> Sorted P l -> Sorted R l.
Proof.
  intros Himp HQ Hs. induction Hs as [|a l Hs IH Hhd]; [constructor|].
  inversion HQ as [|? ? Qa Ql]; subst.
  constructor; [apply IH; exact Ql|].
  destruct Hhd as [|b l Hab]; constructor.
  inversion Ql; subst. apply Himp; assumption.
Qed.

Lemma Sorted_True (l : list A) : Sorted (fun _ _ => True) l.
Proof.
  induction l as [|a l IH]; constructor;
    [exact IH|destruct l; constructor; exact I].
Qed.
End SortedLists.

(** *** The stable sort *)

Section StableSort.
Context {A : Type} (leb : A -> A -> bool).

Lemma insert_perm (x : A) (l : list A) :
  Permutation (x :: l) (insert leb x l).
Proof.
  induction l as [|y l IH]; simpl; [reflexivity|].
  destruct (leb x y); [reflexivity|].
  rewrite perm_swap. constructor. exact IH.
Qed.

Lemma stable_sort_perm (l : list A) : Permutation l (stable_sort leb l).
Proof.
  induction l as [|x l IH]; simpl; [constructor|].
  rewrite <- insert_perm. constructor. exact IH.
Qed.

Lemma sort_reverse_perm (l : list A) : Permutation l (sort_reverse leb l).
Proof.
  unfold sort_reverse.
  rewrite <- Permutation_rev, <- stable_sort_perm.
  apply Permutation_rev.
Qed.

Hypothesis leb_total : forall x y, leb x y = true \/ leb y x = true.

Lemma insert_sorted (x : A) (l : list A) :
  Sorted (fun a b => leb a b = true) l ->
  Sorted (fun a b => leb a b = true) (insert leb x l).
Proof.
  induction l as [|y l IH]; intros Hs; simpl.
  - repeat constructor.
  - destruct (leb x y) eqn:Hxy.
    + constructor; [exact Hs|constructor; exact Hxy].
    + apply Sorted_inv in Hs. destruct Hs as [Hs Hhd].
      constructor; [apply IH; exact Hs|].
      destruct l as [|z l]; simpl.
      * constructor. destruct (leb_total x y); congruence.
      * destruct (leb x z); constructor.
        -- destruct (leb_total x y); congruence.
        -- apply HdRel_inv in Hhd. exact Hhd.
Qed.

Lemma stable_sort_sorted (l : list A) :
  Sorted (fun a b => leb a b = true) (stable_sort leb l).
Proof.
  induction l as [|x l IH]; simpl; [constructor|].
  apply insert_sorted. exact IH.
Qed.

Lemma sort_reverse_sorted (l : list A) :
  Sorted (fun a b => leb b a = true) (sort_reverse leb l).
Proof.
  unfold sort_reverse.
  apply (Sorted_rev (fun a b => leb a b = true)).
  apply stable_sort_sorted.
Qed.
End StableSort.

(** *** [sort_values] *)

Section SortValues.
Context {A K : Type} (key : A -> option K) (leb : K -> K -> bool).

Lemma filter_split_perm (f : A -> bool) (l : list A) :
  Permutation (filter f l ++ filter (fun x => negb (f x)) l) l.
Proof.
  induction l as [|x l IH]; simpl; [constructor|].
  destruct (f x); simpl.
  - constructor. exact IH.
  - rewrite <- Permutation_middle. constructor. exact IH.
Qed.

Lemma sort_values_perm (ascending : bool) (df : list A) :
  Permutation (sort_values key leb ascending df) df.
Proof.
  unfold sort_values.
  set (present := fun r => match key r with Some _ => true | None => false end).
  eapply Permutation_trans; [|apply (filter_split_perm present df)].
  apply Permutation_app_tail.
  destruct ascending; symmetry.
  - apply stable_sort_perm.
  - apply sort_reverse_perm.
Qed.

Lemma sort_values_length (ascending : bool) (df : list A) :
  List.length (sort_values key leb ascending df) = List.length df.
Proof. apply Permutation_length, sort_values_perm. Qed.

Lemma sort_values_In (ascending : bool) (df : list A) (x : A) :
  In x (sort_values key leb ascending df) <-> In x df.
Proof.
  split; apply Permutation_in;
    [|symmetry]; apply sort_values_perm.
Qed.

Hypothesis leb_total : forall x y, leb x y = true \/ leb y x = true.

Lemma sort_values_desc_sorted (df : list A) :
  Sorted (desc_na_last key leb) (sort_values key leb false df).
Proof.
  unfold sort_values.
  set (present := fun r => match key r with Some _ => true | None => false end).
  set (key_leb := fun r1 r2 =>
         match key r1, key r2 with
         | Some k1, Some k2 => leb k1 k2
         | _, _ => true
         end).
  assert (Htot : forall x y, key_leb x y = true \/ key_leb y x = true).
  { intros x y. unfold key_leb.
    destruct (key x), (key y); auto. }
  apply Sorted_app.
  - apply (Sorted_weaken (fun a b => key_leb b a = true)
             (desc_na_last key leb)
             (fun r => present r = true)).
    + intros a b Ha Hb Hab. unfold desc_na_last, key_leb, present in *.
      destruct (key a), (key b); try discriminate; exact Hab.
    + apply Forall_forall. intros x Hx.
      apply (Permutation_in _ (Permutation_sym (sort_reverse_perm key_leb _))) in Hx.
      apply filter_In in Hx. tauto.
    + apply sort_reverse_sorted. exact Htot.
  - apply (Sorted_weaken (fun _ _ => True) (desc_na_last key leb)
             (fun r => present r = false)).
    + intros a b Ha Hb _. unfold desc_na_last, present in *.
      destruct (key a), (key b); try discriminate; exact I.
    + apply Forall_forall. intros x Hx. apply filter_In in Hx.
      destruct Hx as [_ Hx]. apply negb_true_iff in Hx. exact Hx.
    + apply Sorted_True.
  - intros x y _ Hy. apply filter_In in Hy. destruct Hy as [_ Hy].
    apply negb_true_iff in Hy.
    unfold desc_na_last, present in *.
    destruct (key y); [discriminate|]. destruct (key x); exact I.
Qed.
End SortValues.

(** *** Rounding and sums *)

Lemma rint_compat (a b : Q) : a == b -> rint a = rint b.
Proof.
  intros H. unfold rint.
  rewrite (Qfloor_comp a b H).
  assert (Hc : Qcompare (a - inject_Z (Qfloor b)) (1 # 2)
               = Qcompare (b - inject_Z (Qfloor b)) (1 # 2)).
  { apply Qcompare_comp; [rewrite H|]; reflexivity. }
  rewrite Hc. reflexivity.
Qed.

Lemma round2Q_compat (a b : Q) : a == b -> round2Q a = round2Q b.
Proof.
  intros H. unfold round2Q.
  rewrite (rint_compat (a * 100) (b * 100)); [reflexivity|].
  rewrite H. reflexivity.
Qed.

Lemma Qsum_app (a b : list Q) : Qsum (a ++ b) == Qsum a + Qsum b.
Proof.
  induction a as [|x a IH]; simpl.
  - ring.
  - unfold Qsum in *. simpl. rewrite IH. ring.
Qed.

Lemma Qsum_perm (a b : list Q) : Permutation a b -> Qsum a == Qsum b.
Proof.
  unfold Qsum.
  induction 1 as [|x a b _ IH|x y a|a b c _ IH1 _ IH2]; simpl.
  - reflexivity.
  - rewrite IH. reflexivity.
  - ring.
  - rewrite IH1. exact IH2.
Qed.

Lemma Qsum_map_ext {A : Type} (f g : A -> Q) (l : list A) :
  (forall x, In x l -> f x == g x) ->
  Qsum (map f l) == Qsum (map g l).
Proof.
  unfold Qsum. induction l as [|x l IH]; intros H; simpl; [reflexivity|].
  rewrite (H x (or_introl eq_refl)), IH; [reflexivity|].
  intros y Hy. apply H. right. exact Hy.
Qed.

Lemma Qsum_map_plus {A : Type} (f g : A -> Q) (l : list A) :
  Qsum (map (fun x => f x + g x) l) == Qsum (map f l) + Qsum (map g l).
Proof.
  unfold Qsum. induction l as [|x l IH]; simpl; [ring|].
  rewrite IH. ring.
Qed.

Lemma Qsum_map_div {A : Type} (f : A -> Q) (d : Q) (l : list A) :
  Qsum (map (fun x => f x / d) l) == Qsum (map f l) / d.
Proof.
  unfold Qsum, Qdiv. induction l as [|x l IH]; simpl; [ring|].
  rewrite IH. ring.
Qed.

(** The mean of a list without NaN. *)
Lemma nanmean_all_numbers (xs : list float) :
  xs <> [] ->
  (forall x, In x xs -> x <> None) ->
  nanmean xs =
  Some (Qsum (map (fun x => match x with Some q => q | None => 0 end) xs)
        / inject_Z (Z.of_nat (List.length xs))).
Proof.
  intros Hne Hall.
  assert (Hobs : observed xs
                 = map (fun x => match x with Some q => q | None => 0 end) xs).
  { clear Hne. induction xs as [|[q|] xs IH]; simpl.
    - reflexivity.
    - f_equal. apply IH. intros x Hx. apply Hall. right. exact Hx.
    - exfalso. apply (Hall None); [left|]; reflexivity. }
  unfold nanmean. rewrite Hobs.
  destruct xs as [|x xs]; [contradiction|].
  cbn [map List.length]. rewrite length_map. reflexivity.
Qed.

End PyFacts.

(** ** Facts about the scoring stage *)

Module ScoutFacts.
Import Py PyFacts Task1 ScoutSpec.

Lemma groupby_Trainer_In (df : DataFrame) (name : string) (group : DataFrame) :
  In (name, group) (groupby_Trainer df) <->
  In name (map Trainer df) /\ group = rows_of df name.
Proof.
  unfold groupby_Trainer. rewrite in_map_iff. split.
  - intros [k [Hk Hin]]. inversion Hk; subst. split; [|reflexivity].
    apply (Permutation_in _ (Permutation_sym (stable_sort_perm _ _))) in Hin.
    apply nodup_In in Hin. exact Hin.
  - intros [Hin ->]. exists name. split; [reflexivity|].
    apply (Permutation_in _ (stable_sort_perm _ _)).
    apply nodup_In. exact Hin.
Qed.

Lemma rows_of_nonempty (df : DataFrame) (name : string) :
  rows_of df name <> [] -> In name (map Trainer df).
Proof.
  unfold rows_of. intros Hne.
  destruct (filter _ df) as [|r l] eqn:Hf; [contradiction|].
  assert (Hr : In r (filter (fun r => String.eqb (Trainer r) name) df))
    by (rewrite Hf; left; reflexivity).
  apply filter_In in Hr. destruct Hr as [Hr Heq].
  apply String.eqb_eq in Heq. subst name. apply in_map. exact Hr.
Qed.

Lemma results_In (df : DataFrame) (r : result_row) :
  In r (results df) <->
  exists name,
    (MIN_RESPONSES <= List.length (rows_of df name))%nat /\
    r = score_group name (rows_of df name).
Proof.
  unfold results. rewrite in_flat_map. split.
  - intros [[name group] [Hg Hr]].
    apply groupby_Trainer_In in Hg. destruct Hg as [_ ->].
    destruct (Nat.ltb_spec (List.length (rows_of df name)) MIN_RESPONSES)
      as [Hlt|Hge]; [contradiction|].
    destruct Hr as [Hr|[]]. exists name. auto.
  - intros [name [Hge ->]]. exists (name, rows_of df name). split.
    + apply groupby_Trainer_In. split; [|reflexivity].
      apply rows_of_nonempty. intros Heq. rewrite Heq in Hge.
      unfold MIN_RESPONSES in Hge. simpl in Hge. lia.
    + destruct (Nat.ltb_spec (List.length (rows_of df name)) MIN_RESPONSES)
        as [Hlt|_]; [lia|]. left. reflexivity.
Qed.

Lemma Qle_bool_total (x y : Q) : Qle_bool x y = true \/ Qle_bool y x = true.
Proof.
  destruct (Qlt_le_dec y x) as [Hlt|Hle].
  - right. apply Qle_bool_iff, Qlt_le_weak, Hlt.
  - left. apply Qle_bool_iff, Hle.
Qed.

(** The function returns exactly when some trainer passed the filter, and
    then the ranking is a rearrangement of the scored trainers. *)
Lemma compute_trainer_scores_cases (df : DataFrame) :
  (results df = [] /\
   compute_trainer_scores df = SysExit no_trainers_message 1) \/
  (results df <> [] /\
   exists scores,
     compute_trainer_scores df = Return scores /\
     Permutation scores (map add_trainer_score (results df))).
Proof.
  unfold compute_trainer_scores.
  destruct (results df) as [|r l] eqn:Hres; simpl.
  - left. auto.
  - right. split; [discriminate|].
    eexists. split; [reflexivity|]. apply sort_values_perm.
Qed.

Lemma ranked_In (df : DataFrame) (scores : list score_row) (s : score_row) :
  compute_trainer_scores df = Return scores ->
  (In s scores <->
   exists name,
     (MIN_RESPONSES <= List.length (rows_of df name))%nat /\
     s = add_trainer_score (score_group name (rows_of df name))).
Proof.
  intros Hret.
  destruct (compute_trainer_scores_cases df)
    as [[_ Hexit]|[_ [scores' [Hret' Hperm]]]]; [congruence|].
  assert (scores' = scores) by congruence. subst scores'.
  split.
  - intros Hin. apply (Permutation_in _ Hperm) in Hin.
    apply in_map_iff in Hin. destruct Hin as [r [<- Hr]].
    apply results_In in Hr. destruct Hr as [name [Hge ->]].
    exists name. auto.
  - intros [name [Hge ->]].
    apply (Permutation_in _ (Permutation_sym Hperm)).
    apply in_map. apply results_In. exists name. auto.
Qed.

(** *** A scored group *)

(** With at least [MIN_RESPONSES] rows the midpoint is positive, so the
    early and late means come from the two halves. *)
Lemma score_group_halves (name : string) (group : DataFrame) :
  (MIN_RESPONSES <= List.length group)%nat ->
  let group_sorted := sort_values date Z.leb true group in
  let mid := (List.length group_sorted / 2)%nat in
  let early := mean_of_means (firstn mid group_sorted) in
  let late := mean_of_means (skipn mid group_sorted) in
  score_group name group =
  {| trainer := name;
     n_responses := List.length group;
     overall_score := round2 (mean_of_means group);
     early_avg := round2 early;
     late_avg := round2 late;
     improvement := round2 (fsub late early);
     raw_combined := mean_of_means group |}.
Proof.
  intros Hge. unfold score_group.
  assert (Hmid : (0 <? List.length (sort_values date Z.leb true group) / 2)%nat
                 = true).
  { apply Nat.ltb_lt. rewrite sort_values_length.
    unfold MIN_RESPONSES in Hge.
    apply Nat.div_str_pos. lia. }
  rewrite Hmid. reflexivity.
Qed.

(** *** The claims on [compute_trainer_scores] *)

(** C1: every entry of the ranking has
    [trainer_score = round(0.6 * round(overall_mean, 2)
                           + 0.4 * round(late_mean, 2), 2)],
    where [overall_mean] is the mean of the column means of the trainer's
    rows and [late_mean] that of the late half of the rows sorted by date;
    the two rounded means are the reported [overall_score] and
    [late_avg]. *)
Theorem composite_score_from_rounded_means
    (df : DataFrame) (scores : list score_row) (s : score_row) :
  compute_trainer_scores df = Return scores ->
  In s scores ->
  let group := rows_of df (trainer (stats s)) in
  let group_sorted := sort_values date Z.leb true group in
  let overall_mean := mean_of_means group in
  let late_mean :=
    mean_of_means (skipn (List.length group_sorted / 2) group_sorted) in
  overall_score (stats s) = round2 overall_mean /\
  late_avg (stats s) = round2 late_mean /\
  trainer_score s =
    round2 (fadd (fmul (Some (6 # 10)) (round2 overall_mean))
                 (fmul (Some (4 # 10)) (round2 late_mean))).
Proof.
  intros Hret Hin.
  apply (ranked_In df scores s Hret) in Hin.
  destruct Hin as [name [Hge ->]].
  rewrite (score_group_halves name _ Hge). simpl.
  repeat split; reflexivity.
Qed.

Lemma composite_score_from_rounded_means_witness :
  exists scores s,
    compute_trainer_scores Samples.df_B = Return scores /\
    In s scores /\
    trainer_score s =
      round2 (fadd (fmul (Some (6 # 10))
                      (round2 (mean_of_means (rows_of Samples.df_B (trainer (stats s))))))
                   (fmul (Some (4 # 10)) (late_avg (stats s)))).
Proof.
  eexists. eexists.
  split; [vm_compute; reflexivity|].
  split; [left; reflexivity|].
  match goal with
  | |- trainer_score ?s = _ =>
      destruct (composite_score_from_rounded_means Samples.df_B _ s
                  eq_refl (or_introl eq_refl)) as [_ [Hl Hs]]
  end.
  rewrite Hs, Hl. reflexivity.
Defined.

(** C3: a trainer with fewer than [MIN_RESPONSES] completed responses is
    not in the ranking; every entry of the ranking reports the number of
    the trainer's rows, which is at least the threshold. *)
Theorem below_threshold_not_ranked
    (df : DataFrame) (scores : list score_row) (name : string) :
  compute_trainer_scores df = Return scores ->
  (List.length (rows_of df name) < MIN_RESPONSES)%nat ->
  ~ In name (map (fun s => trainer (stats s)) scores).
Proof.
  intros Hret Hlt Hin.
  apply in_map_iff in Hin. destruct Hin as [s [Hname Hin]].
  apply (ranked_In df scores s Hret) in Hin.
  destruct Hin as [name' [Hge ->]].
  rewrite (score_group_halves name' _ Hge) in Hname. simpl in Hname.
  subst name'. lia.
Qed.

Lemma below_threshold_not_ranked_witness :
  exists scores,
    compute_trainer_scores Samples.df_mixed = Return scores /\
    ~ In "c"%string (map (fun s => trainer (stats s)) scores).
Proof.
  eexists. split; [vm_compute; reflexivity|].
  apply (below_threshold_not_ranked Samples.df_mixed _ "c"%string eq_refl).
  vm_compute. lia.
Defined.

(** C4, as the code has it: between an entry of the ranking and the next
    one the composite score does not increase when both scores are
    numbers, and an entry whose score is NaN (a trainer without a single
    numeric rating) is followed only by entries whose score is NaN. *)
Theorem ranking_sorted_nan_last (df : DataFrame) (scores : list score_row) :
  compute_trainer_scores df = Return scores ->
  Sorted score_not_below scores.
Proof.
  unfold compute_trainer_scores.
  destruct (List.length (results df) =? 0)%nat; [discriminate|].
  intros Hret. inversion Hret; subst. clear Hret.
  eapply (Sorted_weaken (desc_na_last trainer_score Qle_bool) score_not_below
            (fun _ => True)).
  - intros a b _ _. unfold desc_na_last, score_not_below.
    destruct (trainer_score a), (trainer_score b); auto.
    apply Qle_bool_iff.
  - apply Forall_forall. auto.
  - apply sort_values_desc_sorted. apply Qle_bool_total.
Qed.

Lemma ranking_sorted_nan_last_witness :
  exists scores,
    compute_trainer_scores Samples.df_unrated = Return scores /\
    Sorted score_not_below scores.
Proof.
  eexists. split; [vm_compute; reflexivity|].
  apply (ranking_sorted_nan_last Samples.df_unrated). reflexivity.
Defined.

(** C4 as stated fails: in the ranking of [df_unrated] the entry of
    trainer a (score 8.0) is followed by the entry of trainer b, whose
    score is NaN, and [8.0 >= NaN] is false. *)
Lemma ranking_not_sorted_by_ge :
  ~ (forall df scores,
        compute_trainer_scores df = Return scores ->
        Sorted (fun a b => fge (trainer_score a) (trainer_score b) = true)
               scores).
Proof.
  intros H.
  specialize (H Samples.df_unrated _ eq_refl).
  vm_compute in H.
  apply Sorted_inv in H. destruct H as [_ H].
  apply HdRel_inv in H. discriminate H.
Qed.

(** C7: when no trainer has [MIN_RESPONSES] completed responses the stage
    prints the warning and exits with status 1; it does not return. *)
Theorem no_qualifying_trainer_exits (df : DataFrame) :
  (forall name, (List.length (rows_of df name) < MIN_RESPONSES)%nat) ->
  compute_trainer_scores df = SysExit no_trainers_message 1.
Proof.
  intros Hall.
  destruct (compute_trainer_scores_cases df)
    as [[_ Hexit]|[Hne _]]; [exact Hexit|].
  exfalso. destruct (results df) as [|r l] eqn:Hres; [apply Hne; reflexivity|].
  assert (Hr : In r (results df)) by (rewrite Hres; left; reflexivity).
  apply results_In in Hr. destruct Hr as [name [Hge _]].
  specialize (Hall name). lia.
Qed.

Lemma no_qualifying_trainer_exits_witness :
  compute_trainer_scores Samples.df_two = SysExit no_trainers_message 1.
Proof.
  apply (no_qualifying_trainer_exits Samples.df_two).
  intros name. unfold rows_of.
  eapply Nat.le_lt_trans; [apply filter_length_le|].
  vm_compute. lia.
Defined.

(** *** Columns without observations *)

Lemma existsb_notna_observed (xs : list float) :
  existsb notna xs = match observed xs with [] => false | _ :: _ => true end.
Proof.
  induction xs as [|[q|] xs IH]; simpl; auto.
Qed.

Lemma observed_column_means (rows : DataFrame) (cols : list string) :
  observed (map (fun col => nanmean (column rows col)) cols) =
  map (column_mean rows)
      (filter (fun col => existsb notna (column rows col)) cols).
Proof.
  induction cols as [|col cols IH]; simpl; [reflexivity|].
  rewrite existsb_notna_observed.
  unfold nanmean at 1.
  destruct (observed (column rows col)) as [|q qs] eqn:Hobs.
  - exact IH.
  - cbn [observed map]. unfold column_mean at 1. rewrite Hobs, IH.
    reflexivity.
Qed.

(** The mean of means of the code is the mean over the observed columns. *)
Lemma mean_of_means_observed (rows : DataFrame) :
  mean_of_means rows = mean_over_observed_columns rows.
Proof.
  assert (Hmeans : rating_means rows
                   = map (fun col => nanmean (column rows col)) RATING_COLS)
    by reflexivity.
  unfold mean_of_means, mean_over_observed_columns. rewrite Hmeans.
  unfold nanmean at 1.
  rewrite observed_column_means. fold (observed_columns rows).
  destruct (observed_columns rows) as [|c cs]; [reflexivity|].
  cbn [map]. rewrite <- (length_map (column_mean rows) (c :: cs)).
  reflexivity.
Qed.

(** C8: for every entry of the ranking the overall mean, the early mean
    and the late mean are each the mean, over the rating columns that have
    at least one numeric value in the rows concerned, of the column means:
    a column without any numeric value there does not count.  Two trainers
    of one table can be scored over different sets of columns. *)
Theorem unobserved_columns_excluded :
  (forall (df : DataFrame) (scores : list score_row) (s : score_row),
      compute_trainer_scores df = Return scores ->
      In s scores ->
      let group := rows_of df (trainer (stats s)) in
      let group_sorted := sort_values date Z.leb true group in
      let mid := (List.length group_sorted / 2)%nat in
      raw_combined (stats s) = mean_over_observed_columns group /\
      overall_score (stats s) = round2 (mean_over_observed_columns group) /\
      early_avg (stats s) =
        round2 (mean_over_observed_columns (firstn mid group_sorted)) /\
      late_avg (stats s) =
        round2 (mean_over_observed_columns (skipn mid group_sorted))) /\
  (exists (df : DataFrame) (scores : list score_row) (s1 s2 : score_row),
      compute_trainer_scores df = Return scores /\
      In s1 scores /\ In s2 scores /\
      observed_columns (rows_of df (trainer (stats s1))) <>
      observed_columns (rows_of df (trainer (stats s2)))).
Proof.
  split.
  - intros df scores s Hret Hin.
    apply (ranked_In df scores s Hret) in Hin.
    destruct Hin as [name [Hge ->]].
    rewrite (score_group_halves name _ Hge). simpl.
    rewrite <- !mean_of_means_observed. repeat split; reflexivity.
  - exists Samples.df_columns. eexists. eexists. eexists.
    split; [vm_compute; reflexivity|].
    split; [left; reflexivity|].
    split; [right; left; reflexivity|].
    vm_compute. discriminate.
Qed.

Lemma unobserved_columns_excluded_witness :
  exists scores s,
    compute_trainer_scores Samples.df_columns = Return scores /\
    In s scores /\
    trainer (stats s) = "x"%string /\
    observed_columns (rows_of Samples.df_columns (trainer (stats s)))
      = [hd ""%string RATING_COLS] /\
    feq (raw_combined (stats s)) (Some 4).
Proof.
  eexists. eexists.
  split; [vm_compute; reflexivity|].
  split; [right; left; reflexivity|].
  split; [reflexivity|].
  split; [vm_compute; reflexivity|].
  match goal with
  | |- feq (raw_combined (stats ?s)) _ =>
      destruct (proj1 unobserved_columns_excluded Samples.df_columns _ s
                  eq_refl (or_intror (or_introl eq_refl))) as [Hraw _]
  end.
  rewrite Hraw. vm_compute. reflexivity.
Defined.

(** *** Fully rated rows *)

Lemma length_nonzero {A : Type} (l : list A) :
  l <> [] -> ~ inject_Z (Z.of_nat (List.length l)) == 0.
Proof.
  intros Hne. destruct l as [|x l]; [contradiction|].
  unfold Qeq. simpl. lia.
Qed.

Lemma rating_total_perm (a b : DataFrame) :
  Permutation a b -> rating_total a == rating_total b.
Proof.
  intros Hperm. unfold rating_total.
  apply Qsum_map_ext. intros col _.
  apply Qsum_perm, Permutation_map, Hperm.
Qed.

Lemma rating_total_app (a b : DataFrame) :
  rating_total (a ++ b) == rating_total a + rating_total b.
Proof.
  unfold rating_total.
  rewrite <- Qsum_map_plus.
  apply Qsum_map_ext. intros col _.
  rewrite map_app. apply Qsum_app.
Qed.

Lemma fully_rated_incl (rows rows' : DataFrame) :
  fully_rated rows -> (forall r, In r rows' -> In r rows) ->
  fully_rated rows'.
Proof.
  intros Hfull Hincl r col Hr Hcol. apply Hfull; auto.
Qed.

(** Without missing ratings the mean of means is the sum of all ratings
    over the number of rows times the number of columns. *)
Lemma mean_of_means_fully_rated (rows : DataFrame) :
  rows <> [] -> fully_rated rows ->
  exists q,
    mean_of_means rows = Some q /\
    q == rating_total rows
         / (inject_Z (Z.of_nat (List.length rows))
            * inject_Z (Z.of_nat (List.length RATING_COLS))).
Proof.
  intros Hne Hfull. unfold mean_of_means, rating_means.
  assert (Hcol : forall col, In col RATING_COLS ->
             nanmean (map (fun r => rating r col) rows)
             = Some (Qsum (map (fun r => rating_value r col) rows)
                     / inject_Z (Z.of_nat (List.length rows)))).
  { intros col Hcol.
    rewrite nanmean_all_numbers.
    - rewrite map_map, length_map. reflexivity.
    - destruct rows; [contradiction|discriminate].
    - intros x Hx. apply in_map_iff in Hx. destruct Hx as [r [<- Hr]].
      apply Hfull; assumption. }
  rewrite (map_ext_in _ _ _ Hcol).
  rewrite nanmean_all_numbers.
  - rewrite map_map, length_map. eexists. split; [reflexivity|].
    rewrite Qsum_map_div. unfold rating_total.
    field. split.
    + apply length_nonzero. discriminate.
    + apply length_nonzero. exact Hne.
  - discriminate.
  - intros x Hx. apply in_map_iff in Hx. destruct Hx as [col [<- _]].
    discriminate.
Qed.

(** *** The four-response example *)

Lemma round2_of (x : float) (q c : Q) :
  x = Some q -> q == c -> round2 x = Some (round2Q c).
Proof.
  intros -> Hq. simpl. rewrite (round2Q_compat q c Hq). reflexivity.
Qed.

(** C2, as the code has it: for a trainer with exactly four completed
    responses and no missing rating, whose first two responses in time
    order have mean of column means 6.0 and whose last two have 9.0, the
    stage returns a ranking with an entry for the trainer in which
    early_avg = 6.0, late_avg = 9.0, improvement = 3.0, overall_score = 7.5
    and trainer_score = round(0.6 * 7.5 + 0.4 * 9.0, 2) = 8.1. *)
Theorem four_responses_example (df : DataFrame) (name : string) :
  two_and_two df name 6 9 ->
  fully_rated (rows_of df name) ->
  exists scores s,
    compute_trainer_scores df = Return scores /\
    In s scores /\
    trainer (stats s) = name /\
    n_responses (stats s) = 4%nat /\
    feq (early_avg (stats s)) (Some 6) /\
    feq (late_avg (stats s)) (Some 9) /\
    feq (improvement (stats s)) (Some 3) /\
    feq (overall_score (stats s)) (Some (75 # 10)) /\
    feq (trainer_score s) (Some (81 # 10)).
Proof.
  intros [Hlen [HE HL]] Hfull.
  set (group := rows_of df name) in *.
  set (group_sorted := sort_values date Z.leb true group) in *.
  assert (Hge : (MIN_RESPONSES <= List.length group)%nat)
    by (rewrite Hlen; unfold MIN_RESPONSES; lia).
  assert (Hperm : Permutation group_sorted group)
    by apply sort_values_perm.
  assert (Hslen : List.length group_sorted = 4%nat)
    by (rewrite (Permutation_length Hperm); exact Hlen).
  (* the function returns and the trainer is ranked *)
  destruct (compute_trainer_scores_cases df)
    as [[Hnil _]|[_ [scores [Hret _]]]].
  { exfalso.
    assert (Hin : In (score_group name group) (results df))
      by (apply results_In; exists name; auto).
    rewrite Hnil in Hin. exact Hin. }
  exists scores, (add_trainer_score (score_group name group)).
  split; [exact Hret|].
  split; [apply (ranked_In df scores _ Hret); exists name; auto|].
  (* the two halves *)
  set (E := firstn 2 group_sorted) in *.
  set (L := skipn 2 group_sorted) in *.
  assert (Hsplit : (E ++ L)%list = group_sorted) by apply firstn_skipn.
  assert (HlenE : List.length E = 2%nat)
    by (unfold E; rewrite length_firstn, Hslen; reflexivity).
  assert (HlenL : List.length L = 2%nat)
    by (unfold L; rewrite length_skipn, Hslen; reflexivity).
  assert (HinE : forall r, In r E -> In r group).
  { intros r Hr. apply (Permutation_in _ Hperm). rewrite <- Hsplit.
    apply in_or_app. left. exact Hr. }
  assert (HinL : forall r, In r L -> In r group).
  { intros r Hr. apply (Permutation_in _ Hperm). rewrite <- Hsplit.
    apply in_or_app. right. exact Hr. }
  destruct (mean_of_means_fully_rated E) as [e [He Heq]];
    [intros H0; rewrite H0 in HlenE; discriminate
    |apply (fully_rated_incl group); assumption|].
  destruct (mean_of_means_fully_rated L) as [l [Hl Hlq]];
    [intros H0; rewrite H0 in HlenL; discriminate
    |apply (fully_rated_incl group); assumption|].
  destruct (mean_of_means_fully_rated group) as [o [Ho Hoq]];
    [intros H0; rewrite H0 in Hlen; discriminate|exact Hfull|].
  rewrite He in HE. rewrite Hl in HL. cbn [feq] in HE, HL.
  rewrite HlenE in Heq. rewrite HlenL in Hlq. rewrite Hlen in Hoq.
  change (inject_Z (Z.of_nat 2) * inject_Z (Z.of_nat (List.length RATING_COLS)))
    with (12 # 1) in Heq, Hlq.
  change (inject_Z (Z.of_nat 4) * inject_Z (Z.of_nat (List.length RATING_COLS)))
    with (24 # 1) in Hoq.
  assert (Htotal : rating_total group == rating_total E + rating_total L).
  { rewrite <- rating_total_app, Hsplit. symmetry.
    apply rating_total_perm. exact Hperm. }
  assert (HtE : rating_total E == 72).
  { assert (H12 : rating_total E == e * 12) by (rewrite Heq; field).
    rewrite H12, HE. reflexivity. }
  assert (HtL : rating_total L == 108).
  { assert (H12 : rating_total L == l * 12) by (rewrite Hlq; field).
    rewrite H12, HL. reflexivity. }
  assert (Ho' : o == 75 # 10).
  { rewrite Hoq, Htotal, HtE, HtL. reflexivity. }
  assert (Hd : l - e == 3) by (rewrite HE, HL; reflexivity).
  (* the reported values *)
  rewrite (score_group_halves name group Hge).
  fold group_sorted. rewrite Hslen.
  change (4 / 2)%nat with 2%nat. fold E L.
  unfold add_trainer_score, composite. cbn [stats trainer_score trainer
    n_responses overall_score early_avg late_avg improvement].
  rewrite (round2_of _ e 6 He HE), (round2_of _ l 9 Hl HL),
    (round2_of _ o (75 # 10) Ho Ho').
  rewrite He, Hl. cbn [fsub lift2].
  rewrite (round2_of (Some (l - e)) (l - e) 3 eq_refl Hd).
  repeat split; try exact Hlen; vm_compute; reflexivity.
Qed.

Lemma df_B_two_and_two : two_and_two Samples.df_B "B"%string 6 9.
Proof.
  unfold two_and_two. repeat split; vm_compute; reflexivity.
Defined.

Lemma df_B_fully_rated : fully_rated (rows_of Samples.df_B "B"%string).
Proof.
  intros r col Hr _. vm_compute in Hr.
  repeat (destruct Hr as [<-|Hr]; [discriminate|]).
  contradiction.
Defined.

Lemma four_responses_example_witness :
  exists scores s,
    compute_trainer_scores Samples.df_B = Return scores /\
    In s scores /\
    trainer (stats s) = "B"%string /\
    feq (overall_score (stats s)) (Some (75 # 10)) /\
    feq (trainer_score s) (Some (81 # 10)).
Proof.
  destruct (four_responses_example Samples.df_B "B"%string
              df_B_two_and_two df_B_fully_rated)
    as [scores [s [Hret [Hin [Hname [_ [_ [_ [_ [Ho Hs]]]]]]]]]].
  exists scores, s. repeat split; assumption.
Defined.

(** C2 as stated fails twice.  In [df_B] the four responses are rated 6, 6,
    9 and 9 in every column, and the trainer's score is 8.1, not 9.0.  In
    [df_B_gap] the second response has no rating: the halves still have
    means 6.0 and 9.0, but every column mean is (6 + 9 + 9) / 3 = 8, so the
    overall mean is 8.0, not 7.5. *)
Lemma four_responses_not_as_stated :
  ~ (forall df name scores s,
        compute_trainer_scores df = Return scores ->
        In s scores -> trainer (stats s) = name ->
        two_and_two df name 6 9 ->
        feq (trainer_score s) (Some 9)) /\
  ~ (forall df name scores s,
        compute_trainer_scores df = Return scores ->
        In s scores -> trainer (stats s) = name ->
        two_and_two df name 6 9 ->
        feq (overall_score (stats s)) (Some (75 # 10))).
Proof.
  split; intros H.
  - specialize (H Samples.df_B "B"%string _ _ eq_refl (or_introl eq_refl)
                  eq_refl df_B_two_and_two).
    vm_compute in H. discriminate H.
  - assert (Hgap : two_and_two Samples.df_B_gap "B"%string 6 9)
      by (unfold two_and_two; repeat split; vm_compute; reflexivity).
    specialize (H Samples.df_B_gap "B"%string _ _ eq_refl (or_introl eq_refl)
                  eq_refl Hgap).
    vm_compute in H. discriminate H.
Qed.

End ScoutFacts.

(** ** Facts about the evidence quotes *)

Module QuoteFacts.
Import Py PyFacts Task1 QuoteSpec.

Lemma replace_length (old new : ascii) (s : string) :
  String.length (replace old new s) = String.length s.
Proof.
  induction s as [|c s IH]; simpl; [reflexivity|].
  rewrite IH. reflexivity.
Qed.

(** The guard of the inner loop never evaluates [val.strip()] on a value
    that is not a [str], so a cell yields its candidates without raising. *)
Lemma scan_cell_ok (r : row) (col : string) :
  scan_cell r col = Ok (cell_candidates r col).
Proof.
  unfold scan_cell, cell_candidates.
  destruct (text r col) as [| |s|q]; simpl; try reflexivity.
  destruct (20 <? String.length (strip s))%nat; reflexivity.
Qed.

Lemma for_each_ok {A B : Type} (f : A -> result (list B))
    (g : A -> list B) (l : list A) :
  (forall x, f x = Ok (g x)) ->
  for_each f l = Ok (flat_map g l).
Proof.
  intros Hf. induction l as [|x l IH]; simpl; [reflexivity|].
  rewrite Hf, IH. reflexivity.
Qed.

Lemma extract_best_quotes_ok (df : DataFrame) (name : string) (n : Z) :
  extract_best_quotes df name n =
  Ok (slice_to n (sort_reverse length_leb (all_candidates (rows_of df name)))).
Proof.
  unfold extract_best_quotes, all_candidates.
  rewrite (for_each_ok _ (fun r => flat_map (cell_candidates r) QUOTE_COLS)).
  - reflexivity.
  - intros r. apply for_each_ok. intros col. apply scan_cell_ok.
Qed.

Lemma all_candidates_from (rows : DataFrame) (c : candidate) :
  In c (all_candidates rows) ->
  quoted_from rows c /\ cand_length c = String.length (cand_quote c).
Proof.
  unfold all_candidates. intros Hin.
  apply in_flat_map in Hin. destruct Hin as [r [Hr Hin]].
  apply in_flat_map in Hin. destruct Hin as [col [Hcol Hin]].
  unfold cell_candidates in Hin.
  destruct (text r col) as [| |s|q] eqn:Hcell; try contradiction.
  destruct (Nat.ltb_spec 20 (String.length (strip s))) as [Hlt|_];
    [|contradiction].
  destruct Hin as [<-|[]]. simpl. split.
  - exists r, col, s. repeat split; auto.
  - rewrite replace_length. reflexivity.
Qed.

Lemma all_candidates_none (rows : DataFrame) :
  no_qualifying_text rows -> all_candidates rows = [].
Proof.
  intros Hnone.
  destruct (all_candidates rows) as [|c l] eqn:Hall; [reflexivity|].
  assert (Hin : In c (all_candidates rows)) by (rewrite Hall; left; reflexivity).
  apply all_candidates_from in Hin.
  destruct Hin as [[r [col [s [Hr [Hcol [Hcell [_ [_ Hlt]]]]]]]] _].
  specialize (Hnone r col s Hr Hcol Hcell). lia.
Qed.

Lemma slice_to_In {A : Type} (n : Z) (l : list A) (x : A) :
  In x (slice_to n l) -> In x l.
Proof.
  unfold slice_to.
  destruct (0 <=? n)%Z; intros Hin;
    match type of Hin with
    | In _ (firstn ?k _) => rewrite <- (firstn_skipn k l)
    end; apply in_or_app; left; exact Hin.
Qed.

Lemma Sorted_firstn {A : Type} (R : A -> A -> Prop) (k : nat) (l : list A) :
  Sorted R l -> Sorted R (firstn k l).
Proof.
  revert l. induction k as [|k IH]; intros l Hs; [constructor|].
  destruct l as [|a l]; [constructor|].
  apply Sorted_inv in Hs. destruct Hs as [Hs Hhd]. simpl.
  constructor; [apply IH; exact Hs|].
  destruct l as [|b l]; [destruct k; constructor|].
  apply HdRel_inv in Hhd. destruct k; constructor. exact Hhd.
Qed.

Lemma slice_to_Sorted {A : Type} (R : A -> A -> Prop) (n : Z) (l : list A) :
  Sorted R l -> Sorted R (slice_to n l).
Proof.
  unfold slice_to. destruct (0 <=? n)%Z; apply Sorted_firstn.
Qed.

Lemma length_leb_total (a b : candidate) :
  length_leb a b = true \/ length_leb b a = true.
Proof.
  unfold length_leb.
  destruct (Nat.leb_spec (cand_length a) (cand_length b)); [left; reflexivity|].
  right. apply Nat.leb_le. lia.
Qed.

(** C5: [extract_best_quotes] returns a list, never an error.  Every quote
    in it is the trimmed text of a [str] cell of the trainer's rows and is
    longer than 20 characters; the list is in descending order of text
    length; for a requested count [n >= 0] it has at most [n] elements;
    and it is empty when the trainer has no qualifying text. *)
Theorem best_quotes_long_sorted_bounded
    (df : DataFrame) (name : string) (n : Z) :
  exists quotes,
    extract_best_quotes df name n = Ok quotes /\
    Forall (fun c =>
              quoted_from (rows_of df name) c /\
              (20 < String.length (cand_quote c))%nat /\
              cand_length c = String.length (cand_quote c)) quotes /\
    Sorted (fun a b =>
              (String.length (cand_quote b) <= String.length (cand_quote a))%nat)
           quotes /\
    ((0 <= n)%Z -> (List.length quotes <= Z.to_nat n)%nat) /\
    (no_qualifying_text (rows_of df name) -> quotes = []).
Proof.
  eexists. split; [apply extract_best_quotes_ok|].
  set (cands := all_candidates (rows_of df name)).
  assert (Hfrom : forall c,
             In c (slice_to n (sort_reverse length_leb cands)) ->
             quoted_from (rows_of df name) c /\
             cand_length c = String.length (cand_quote c)).
  { intros c Hin. apply slice_to_In in Hin.
    apply (Permutation_in _ (Permutation_sym (sort_reverse_perm _ _))) in Hin.
    apply all_candidates_from. exact Hin. }
  repeat split.
  - apply Forall_forall. intros c Hin.
    destruct (Hfrom c Hin) as [Hq Hlen]. repeat split; auto.
    destruct Hq as [r [col [s [_ [_ [_ [_ [Hquote Hlt]]]]]]]].
    rewrite Hquote, replace_length. exact Hlt.
  - apply (Sorted_weaken (fun a b => length_leb b a = true) _
             (fun c => cand_length c = String.length (cand_quote c))).
    + intros a b Ha Hb Hab. unfold length_leb in Hab.
      apply Nat.leb_le in Hab. lia.
    + apply Forall_forall. intros c Hin. apply (Hfrom c Hin).
    + apply slice_to_Sorted, sort_reverse_sorted, length_leb_total.
  - intros Hn. unfold slice_to.
    destruct (Z.leb_spec 0 n) as [_|Hneg]; [|lia].
    apply firstn_le_length.
  - intros Hnone. unfold cands. rewrite (all_candidates_none _ Hnone).
    unfold slice_to. destruct (0 <=? n)%Z; simpl; apply firstn_nil.
Qed.

Lemma best_quotes_long_sorted_bounded_witness :
  exists quotes,
    extract_best_quotes Samples.df_quotes "q"%string 1 = Ok quotes /\
    (List.length quotes <= 1)%nat.
Proof.
  destruct (best_quotes_long_sorted_bounded Samples.df_quotes "q"%string 1)
    as [quotes [Hok [_ [_ [Hlen _]]]]].
  exists quotes. split; [exact Hok|].
  apply Hlen. lia.
Defined.

(** C9: a free-text cell that is not a [str] (an absent column, a blank
    cell, a number) contributes no candidate and raises nothing, and
    [extract_best_quotes] returns a list for every table, trainer and
    count; each quote it returns was read from a [str] cell. *)
Theorem extraction_total_skips_non_strings :
  (forall (r : row) (col : string),
      is_str (text r col) = false -> scan_cell r col = Ok []) /\
  (forall (df : DataFrame) (name : string) (n : Z),
      exists quotes,
        extract_best_quotes df name n = Ok quotes /\
        Forall (quoted_from (rows_of df name)) quotes).
Proof.
  split.
  - intros r col Hstr. rewrite scan_cell_ok. unfold cell_candidates.
    destruct (text r col); try reflexivity. discriminate Hstr.
  - intros df name n. eexists. split; [apply extract_best_quotes_ok|].
    apply Forall_forall. intros c Hin. apply slice_to_In in Hin.
    apply (Permutation_in _ (Permutation_sym (sort_reverse_perm _ _))) in Hin.
    apply all_candidates_from in Hin. tauto.
Qed.

Lemma extraction_total_skips_non_strings_witness :
  scan_cell (hd (Samples.worded "" "" PyNone PyNone PyNone) Samples.df_quotes)
            (nth 1 QUOTE_COLS ""%string) = Ok [].
Proof.
  apply (proj1 extraction_total_skips_non_strings).
  reflexivity.
Defined.

End QuoteFacts.

(** ** Facts about the outreach stage *)

Module OutreachFacts.
Import Py Task2.
Local Open Scope string_scope.

Lemma append_length (a b : string) :
  String.length (a ++ b) = (String.length a + String.length b)%nat.
Proof.
  induction a as [|c a IH]; simpl; [reflexivity|].
  rewrite IH. reflexivity.
Qed.

Lemma substring_0_length (n : nat) (s : string) :
  (n <= String.length s)%nat -> String.length (substring 0 n s) = n.
Proof.
  revert s. induction n as [|n IH]; intros s Hle.
  - destruct s; reflexivity.
  - destruct s as [|c s]; simpl in *; [lia|].
    rewrite IH; [reflexivity|lia].
Qed.

Lemma substring_0_prefix (n : nat) (s : string) :
  prefix (substring 0 n s) s = true.
Proof.
  revert s. induction n as [|n IH]; intros s.
  - destruct s; reflexivity.
  - destruct s as [|c s]; simpl; [reflexivity|].
    destruct (ascii_dec c c) as [_|Hne]; [apply IH|contradiction].
Qed.

Section DraftFacts.
Variable title : string -> string.
Variable str_float : float -> string.
Variable str_int : Z -> string.
Variable now_isoformat : string.

(** C6: a selected quote of at most 200 characters stands in the body
    as it is, between the fixed text before and after it; a longer one
    is replaced by a proper prefix of itself followed by the marker
    ["..."]. *)
Theorem short_quote_verbatim_long_truncated (t : ranked_result) :
  ((String.length (selected_quote t) <= 200)%nat ->
   body (generate_outreach_draft title str_float str_int now_isoformat t)
   = body_head title str_float str_int t
     ++ selected_quote t ++ body_after_quote) /\
  ((200 < String.length (selected_quote t))%nat ->
   exists kept,
     body (generate_outreach_draft title str_float str_int now_isoformat t)
     = body_head title str_float str_int t
       ++ (kept ++ "...") ++ body_after_quote /\
     prefix kept (selected_quote t) = true /\
     (String.length kept < String.length (selected_quote t))%nat).
Proof.
  unfold generate_outreach_draft, embedded_quote.
  cbn [body]. split; intros Hlen.
  - destruct (Nat.ltb_spec 200 (String.length (selected_quote t)));
      [lia|reflexivity].
  - destruct (Nat.ltb_spec 200 (String.length (selected_quote t)));
      [|lia].
    exists (substring 0 197 (selected_quote t)). repeat split.
    + apply substring_0_prefix.
    + rewrite substring_0_length; lia.
Qed.

(** C10: a selected quote of more than 200 characters is embedded as its
    first 197 characters followed by ["..."], 200 characters in all. *)
Theorem truncated_quote_is_197_plus_marker (t : ranked_result) :
  (200 < String.length (selected_quote t))%nat ->
  embedded_quote t = substring 0 197 (selected_quote t) ++ "..." /\
  String.length (substring 0 197 (selected_quote t)) = 197%nat /\
  (forall i, (i < 197)%nat ->
             get i (embedded_quote t) = get i (selected_quote t)) /\
  String.length (embedded_quote t) = 200%nat /\
  body (generate_outreach_draft title str_float str_int now_isoformat t)
  = body_head title str_float str_int t
    ++ embedded_quote t ++ body_after_quote.
Proof.
  intros Hlen.
  assert (Hemb : embedded_quote t
                 = substring 0 197 (selected_quote t) ++ "...").
  { unfold embedded_quote.
    destruct (Nat.ltb_spec 200 (String.length (selected_quote t)));
      [reflexivity|lia]. }
  assert (Hkept : String.length (substring 0 197 (selected_quote t))
                  = 197%nat)
    by (apply substring_0_length; lia).
  repeat split.
  - exact Hemb.
  - exact Hkept.
  - intros i Hi. rewrite Hemb.
    rewrite <- append_correct1 by (rewrite Hkept; exact Hi).
    rewrite (substring_correct1 (selected_quote t) 0 197 i Hi).
    rewrite Nat.add_0_r. reflexivity.
  - rewrite Hemb, append_length, Hkept. reflexivity.
Qed.
End DraftFacts.

Lemma short_quote_verbatim_long_truncated_witness :
  body (generate_outreach_draft (fun s => s) (fun _ => "7.5") (fun _ => "4")
          "2026-01-01T00:00:00" Samples.short_entry)
  = body_head (fun s => s) (fun _ => "7.5") (fun _ => "4") Samples.short_entry
    ++ "She made every session lively and practical." ++ body_after_quote
  /\
  exists kept,
    body (generate_outreach_draft (fun s => s) (fun _ => "9.0") (fun _ => "5")
            "2026-01-01T00:00:00" Samples.long_entry)
    = body_head (fun s => s) (fun _ => "9.0") (fun _ => "5") Samples.long_entry
      ++ (kept ++ "...") ++ body_after_quote /\
    (String.length kept < 227)%nat.
Proof.
  split.
  - apply (proj1 (short_quote_verbatim_long_truncated
                    (fun s => s) (fun _ => "7.5") (fun _ => "4")
                    "2026-01-01T00:00:00" Samples.short_entry)).
    vm_compute. lia.
  - destruct (proj2 (short_quote_verbatim_long_truncated
                       (fun s => s) (fun _ => "9.0") (fun _ => "5")
                       "2026-01-01T00:00:00" Samples.long_entry))
      as [kept [Hbody [_ Hlen]]].
    + vm_compute. lia.
    + exists kept. split; [exact Hbody|exact Hlen].
Defined.

Lemma truncated_quote_is_197_plus_marker_witness :
  String.length (embedded_quote Samples.long_entry) = 200%nat.
Proof.
  apply (truncated_quote_is_197_plus_marker
           (fun s => s) (fun _ => "9.0") (fun _ => "5")
           "2026-01-01T00:00:00" Samples.long_entry).
  vm_compute. lia.
Defined.

End OutreachFacts.

(** ** Rounding keeps order *)

Module RoundFacts.
Import Py PyFacts.

Lemma rint_floor_bounds (q : Q) :
  (Qfloor q <= rint q <= Qfloor q + 1)%Z.
Proof.
  unfold rint.
  destruct (Qcompare (q - inject_Z (Qfloor q)) (1 # 2));
    [destruct (Z.even (Qfloor q))| |]; lia.
Qed.

Lemma rint_mono (x y : Q) : x <= y -> (rint x <= rint y)%Z.
Proof.
  intros Hxy.
  pose proof (Qfloor_resp_le x y Hxy) as Hf.
  destruct (Z.eq_dec (Qfloor x) (Qfloor y)) as [Heq|Hne].
  - unfold rint. rewrite Heq.
    destruct (Qcompare_spec (x - inject_Z (Qfloor y)) (1 # 2)) as [Hx|Hx|Hx];
      destruct (Qcompare_spec (y - inject_Z (Qfloor y)) (1 # 2)) as [Hy|Hy|Hy];
      try destruct (Z.even (Qfloor y)); try lia; exfalso; lra.
  - pose proof (rint_floor_bounds x). pose proof (rint_floor_bounds y). lia.
Qed.

Lemma rint_inject_Z (z : Z) : rint (inject_Z z) = z.
Proof.
  unfold rint. rewrite Qfloor_Z.
  assert (H : Qcompare (inject_Z z - inject_Z z) (1 # 2) = Lt).
  { apply Qlt_alt.
    setoid_replace (inject_Z z - inject_Z z) with 0 by ring.
    reflexivity. }
  rewrite H. reflexivity.
Qed.

Lemma round2Q_mono (x y : Q) : x <= y -> round2Q x <= round2Q y.
Proof.
  intros Hxy. unfold round2Q.
  assert (H : (rint (x * 100) <= rint (y * 100))%Z)
    by (apply rint_mono; lra).
  apply Qmult_le_compat_r; [|apply Qinv_le_0_compat; lra].
  rewrite <- Zle_Qle. exact H.
Qed.

(** A number with at most two decimals is left as it is. *)
Lemma round2Q_hundredths (z : Z) :
  round2Q (inject_Z z / 100) == inject_Z z / 100.
Proof.
  unfold round2Q.
  rewrite (rint_compat (inject_Z z / 100 * 100) (inject_Z z)) by field.
  rewrite rint_inject_Z. reflexivity.
Qed.

Lemma round2Q_inject_Z (z : Z) : round2Q (inject_Z z) == inject_Z z.
Proof.
  rewrite (round2Q_compat (inject_Z z) (inject_Z (z * 100) / 100)).
  - rewrite round2Q_hundredths. rewrite inject_Z_mult. field.
  - rewrite inject_Z_mult. field.
Qed.

Lemma round2Q_between (lo hi : Z) (x : Q) :
  inject_Z lo <= x <= inject_Z hi ->
  inject_Z lo <= round2Q x <= inject_Z hi.
Proof.
  intros [Hlo Hhi]. split.
  - rewrite <- (round2Q_inject_Z lo). apply round2Q_mono. exact Hlo.
  - rewrite <- (round2Q_inject_Z hi). apply round2Q_mono. exact Hhi.
Qed.

(** A number strictly between -1/2 and 1/2 rounds to 0. *)
Lemma rint_small (x : Q) : -(1 # 2) < x < 1 # 2 -> rint x = 0%Z.
Proof.
  intros [Hlo Hhi].
  pose proof (Qfloor_le x) as Hf1.
  pose proof (Qlt_floor x) as Hf2.
  assert (Hle : (Qfloor x <= 0)%Z).
  { assert (H : inject_Z (Qfloor x) < inject_Z 1)
      by (change (inject_Z 1) with 1; lra).
    rewrite <- Zlt_Qlt in H. lia. }
  assert (Hge : (-1 <= Qfloor x)%Z).
  { assert (H : inject_Z (-1) < inject_Z (Qfloor x + 1)).
    { change (inject_Z (-1)) with (-(1)). lra. }
    rewrite <- Zlt_Qlt in H. lia. }
  unfold rint.
  assert (Hcases : Qfloor x = 0%Z \/ Qfloor x = (-1)%Z) by lia.
  destruct Hcases as [H0|H1].
  - rewrite H0.
    assert (Hc : Qcompare (x - inject_Z 0) (1 # 2) = Lt).
    { rewrite <- Qlt_alt. change (inject_Z 0) with 0. lra. }
    rewrite Hc. reflexivity.
  - rewrite H1.
    assert (Hc : Qcompare (x - inject_Z (-1)) (1 # 2) = Gt).
    { rewrite <- Qgt_alt. change (inject_Z (-1)) with (-(1)). lra. }
    rewrite Hc. reflexivity.
Qed.

Lemma round2Q_small (x : Q) :
  -(1 # 200) < x < 1 # 200 -> round2Q x == 0.
Proof.
  intros H. unfold round2Q. rewrite rint_small by lra. reflexivity.
Qed.

Lemma round2Q_0 : round2Q 0 == 0.
Proof. reflexivity. Qed.






End RoundFacts.

(** ** More on the ranking *)

Module ScoutMore.
Import Py PyFacts Task1 ScoutSpec ScoutFacts ScoutMoreSpec RoundFacts.

Lemma score_group_trainer (name : string) (group : DataFrame) :
  trainer (score_group name group) = name /\
  n_responses (score_group name group) = List.length group.
Proof.
  unfold score_group.
  destruct (0 <? _)%nat; split; reflexivity.
Qed.

Lemma results_trainers (df : DataFrame) :
  map trainer (results df) =
  filter (fun k => negb (response_count df k <? MIN_RESPONSES)%nat)
         (stable_sort String.leb (nodup string_dec (map Trainer df))).
Proof.
  unfold results, groupby_Trainer, response_count.
  induction (stable_sort String.leb (nodup string_dec (map Trainer df)))
    as [|k keys IH]; [reflexivity|].
  cbn [map flat_map filter].
  destruct (List.length (rows_of df k) <? MIN_RESPONSES)%nat; cbn [negb].
  - exact IH.
  - cbn [app map]. rewrite IH.
    rewrite (proj1 (score_group_trainer k (rows_of df k))). reflexivity.
Qed.

Lemma ranked_trainers_perm (df : DataFrame) (scores : list score_row) :
  compute_trainer_scores df = Return scores ->
  Permutation (ranked_trainers scores) (map trainer (results df)).
Proof.
  intros Hret.
  destruct (compute_trainer_scores_cases df)
    as [[_ Hexit]|[_ [scores' [Hret' Hperm]]]]; [congruence|].
  assert (scores' = scores) by congruence. subst scores'.
  unfold ranked_trainers.
  rewrite (Permutation_map (fun s => trainer (stats s)) Hperm).
  rewrite map_map. reflexivity.
Qed.

Lemma ranked_trainers_spec (df : DataFrame) (scores : list score_row) :
  compute_trainer_scores df = Return scores ->
  NoDup (ranked_trainers scores) /\
  (forall name,
      In name (ranked_trainers scores) <->
      (MIN_RESPONSES <= response_count df name)%nat) /\
  (forall s,
      In s scores ->
      n_responses (stats s) = response_count df (trainer (stats s))).
Proof.
  intros Hret.
  pose proof (ranked_trainers_perm df scores Hret) as Hperm.
  rewrite results_trainers in Hperm.
  repeat split.
  - apply (Permutation_NoDup (Permutation_sym Hperm)).
    apply NoDup_filter.
    apply (Permutation_NoDup (stable_sort_perm _ _)).
    apply NoDup_nodup.
  - intros Hin. unfold ranked_trainers in Hin.
    apply in_map_iff in Hin. destruct Hin as [s [<- Hin]].
    apply (ranked_In df scores s Hret) in Hin.
    destruct Hin as [name' [Hge ->]]. cbn [stats add_trainer_score].
    rewrite (proj1 (score_group_trainer _ _)). exact Hge.
  - intros Hge. unfold ranked_trainers.
    apply in_map_iff.
    exists (add_trainer_score (score_group name (rows_of df name))).
    split.
    + cbn [stats add_trainer_score]. apply score_group_trainer.
    + apply (ranked_In df scores _ Hret). exists name. auto.
  - intros s Hin.
    apply (ranked_In df scores s Hret) in Hin.
    destruct Hin as [name [_ ->]]. cbn [stats add_trainer_score].
    destruct (score_group_trainer name (rows_of df name)) as [-> ->].
    reflexivity.
Qed.

(** X1: the ranking lists each trainer at most once, a trainer is listed
    exactly when the table has at least [MIN_RESPONSES] rows of them, and
    the entry reports that number of rows. *)
Theorem ranking_is_the_qualifying_trainers
    (df : DataFrame) (scores : list score_row) :
  compute_trainer_scores df = Return scores ->
  NoDup (ranked_trainers scores) /\
  (forall name,
      In name (ranked_trainers scores) <->
      (MIN_RESPONSES <= response_count df name)%nat) /\
  (forall s,
      In s scores ->
      n_responses (stats s) = response_count df (trainer (stats s))).
Proof. apply ranked_trainers_spec. Qed.

Lemma ranking_is_the_qualifying_trainers_witness :
  exists scores,
    compute_trainer_scores Samples.df_mixed = Return scores /\
    NoDup (ranked_trainers scores) /\
    In "B"%string (ranked_trainers scores).
Proof.
  eexists. split; [vm_compute; reflexivity|].
  destruct (ranking_is_the_qualifying_trainers Samples.df_mixed _ eq_refl)
    as [Hnodup [Hiff _]].
  split; [exact Hnodup|].
  apply Hiff. vm_compute. lia.
Defined.

(** *** Counting rows *)

Lemma list_sum_perm (a b : list nat) :
  Permutation a b -> list_sum a = list_sum b.
Proof.
  induction 1; simpl; lia.
Qed.

Lemma list_sum_map_add {A : Type} (f g : A -> nat) (l : list A) :
  list_sum (map (fun x => f x + g x)%nat l)
  = (list_sum (map f l) + list_sum (map g l))%nat.
Proof.
  induction l as [|x l IH]; simpl; lia.
Qed.

Lemma list_sum_filter_le {A : Type} (f : A -> nat) (p : A -> bool)
    (l : list A) :
  (list_sum (map f (filter p l)) <= list_sum (map f l))%nat.
Proof.
  induction l as [|x l IH]; simpl; [lia|].
  destruct (p x); simpl; lia.
Qed.

Lemma list_sum_at_least {A : Type} (f : A -> nat) (c : nat) (l : list A) :
  (forall x, In x l -> (c <= f x)%nat) ->
  (c * List.length l <= list_sum (map f l))%nat.
Proof.
  induction l as [|x l IH]; intros H; simpl; [lia|].
  pose proof (H x (or_introl eq_refl)).
  assert (c * List.length l <= list_sum (map f l))%nat
    by (apply IH; intros y Hy; apply H; right; exact Hy).
  lia.
Qed.

Lemma one_key_matches (name : string) (keys : list string) :
  NoDup keys ->
  (list_sum (map (fun k => if String.eqb name k then 1 else 0)%nat keys)
   <= 1)%nat.
Proof.
  induction 1 as [|k keys Hnotin _ IH]; simpl; [lia|].
  destruct (String.eqb_spec name k) as [->|_]; [|lia].
  assert (Hzero : list_sum (map (fun k' => if String.eqb k k' then 1 else 0)%nat
                               keys) = 0%nat).
  { clear IH. induction keys as [|k' keys IH']; [reflexivity|]. simpl.
    destruct (String.eqb_spec k k') as [->|_].
    - exfalso. apply Hnotin. left. reflexivity.
    - apply IH'. intros Hin. apply Hnotin. right. exact Hin. }
  lia.
Qed.

(** Rows of distinct trainers are distinct rows. *)
Lemma response_counts_le (df : DataFrame) (keys : list string) :
  NoDup keys ->
  (list_sum (map (response_count df) keys) <= List.length df)%nat.
Proof.
  intros Hnodup. unfold response_count, rows_of.
  induction df as [|r df IH]; simpl.
  - clear Hnodup. induction keys; simpl; auto.
  - rewrite (map_ext _
      (fun k => (if String.eqb (Trainer r) k then 1 else 0)
                + List.length (filter (fun r0 => String.eqb (Trainer r0) k) df))%nat).
    + rewrite list_sum_map_add.
      pose proof (one_key_matches (Trainer r) keys Hnodup). lia.
    + intros k. destruct (String.eqb (Trainer r) k); reflexivity.
Qed.

(** X2: the response counts of the ranked trainers add up to at most the
    number of rows of the table, so a table of [n] rows ranks at most
    [n / MIN_RESPONSES] trainers. *)
Theorem ranking_size_bounded (df : DataFrame) (scores : list score_row) :
  compute_trainer_scores df = Return scores ->
  (list_sum (map (fun s => n_responses (stats s)) scores)
   <= List.length df)%nat /\
  (MIN_RESPONSES * List.length scores <= List.length df)%nat.
Proof.
  intros Hret.
  destruct (ranked_trainers_spec df scores Hret)
    as [_ [Hiff Hcount]].
  assert (Hsum : (list_sum (map (fun s => n_responses (stats s)) scores)
                  <= List.length df)%nat).
  { rewrite (map_ext_in _ (fun s => response_count df (trainer (stats s))))
      by exact Hcount.
    rewrite <- (map_map (fun s => trainer (stats s)) (response_count df)).
    fold (ranked_trainers scores).
    rewrite (list_sum_perm _ _
               (Permutation_map _ (ranked_trainers_perm df scores Hret))).
    rewrite results_trainers.
    eapply Nat.le_trans; [apply list_sum_filter_le|].
    apply response_counts_le.
    apply (Permutation_NoDup (stable_sort_perm _ _)).
    apply NoDup_nodup. }
  split; [exact Hsum|].
  eapply Nat.le_trans; [|exact Hsum].
  apply list_sum_at_least. intros s Hin.
  rewrite (Hcount s Hin). apply Hiff.
  unfold ranked_trainers.
  apply (in_map (fun s' => trainer (stats s'))). exact Hin.
Qed.

Lemma ranking_size_bounded_witness :
  exists scores,
    compute_trainer_scores Samples.df_unrated = Return scores /\
    (MIN_RESPONSES * List.length scores <= 6)%nat.
Proof.
  eexists. split; [vm_compute; reflexivity|].
  apply (ranking_size_bounded Samples.df_unrated _ eq_refl).
Defined.



(** *** Means stay between the ratings *)

Lemma In_observed (xs : list float) (q : Q) :
  In q (observed xs) <-> In (Some q) xs.
Proof.
  induction xs as [|[x|] xs IH]; simpl.
  - tauto.
  - rewrite IH. split; intros [H|H]; auto; left; congruence.
  - rewrite IH. split; [auto|]. intros [H|H]; [discriminate|exact H].
Qed.

Lemma Qsum_bounds (lo hi : Q) (qs : list Q) :
  (forall q, In q qs -> lo <= q <= hi) ->
  inject_Z (Z.of_nat (List.length qs)) * lo <= Qsum qs
  <= inject_Z (Z.of_nat (List.length qs)) * hi.
Proof.
  induction qs as [|q qs IH]; intros H.
  - cbv [List.length Z.of_nat inject_Z Qsum fold_right]. lra.
  - assert (Hq : lo <= q <= hi) by (apply H; left; reflexivity).
    assert (Hqs : inject_Z (Z.of_nat (List.length qs)) * lo <= Qsum qs
                  <= inject_Z (Z.of_nat (List.length qs)) * hi)
      by (apply IH; intros x Hx; apply H; right; exact Hx).
    cbn [List.length]. rewrite Nat2Z.inj_succ. unfold Z.succ.
    rewrite inject_Z_plus.
    change (Qsum (q :: qs)) with (q + Qsum qs).
    change (inject_Z 1) with 1.
    set (n := inject_Z (Z.of_nat (List.length qs))) in *.
    lra.
Qed.

Lemma nanmean_within (lo hi : Q) (xs : list float) :
  (forall q, In (Some q) xs -> lo <= q <= hi) ->
  within lo hi (nanmean xs).
Proof.
  intros H. unfold nanmean.
  destruct (observed xs) as [|q qs] eqn:Hobs; [exact I|].
  assert (Hall : forall x, In x (q :: qs) -> lo <= x <= hi).
  { intros x Hx. apply H. apply In_observed. rewrite Hobs. exact Hx. }
  pose proof (Qsum_bounds lo hi (q :: qs) Hall) as [Hlow Hhigh].
  assert (Hpos : 0 < inject_Z (Z.of_nat (List.length (q :: qs)))).
  { change 0 with (inject_Z 0). rewrite <- Zlt_Qlt. simpl. lia. }
  cbn [within]. split.
  - apply Qle_shift_div_l; [exact Hpos|]. lra.
  - apply Qle_shift_div_r; [exact Hpos|]. lra.
Qed.

Lemma mean_of_means_within (lo hi : Q) (rows : DataFrame) :
  ratings_within lo hi rows -> within lo hi (mean_of_means rows).
Proof.
  intros Hrows. unfold mean_of_means. apply nanmean_within.
  intros m Hm. unfold rating_means in Hm.
  apply in_map_iff in Hm. destruct Hm as [col [Hmean Hcol]].
  assert (Hw : within lo hi (nanmean (map (fun r => rating r col) rows))).
  { apply nanmean_within. intros q Hq.
    apply in_map_iff in Hq. destruct Hq as [r [Hr Hin]].
    apply (Hrows r col q); assumption. }
  rewrite Hmean in Hw. exact Hw.
Qed.

Lemma halves_perm (group : DataFrame) :
  Permutation (early_half group ++ late_half group) group.
Proof.
  unfold early_half, late_half. rewrite firstn_skipn.
  apply sort_values_perm.
Qed.

Lemma early_half_incl (group : DataFrame) (r : row) :
  In r (early_half group) -> In r group.
Proof.
  intros Hr. apply (Permutation_in _ (halves_perm group)).
  apply in_or_app. left. exact Hr.
Qed.

Lemma late_half_incl (group : DataFrame) (r : row) :
  In r (late_half group) -> In r group.
Proof.
  intros Hr. apply (Permutation_in _ (halves_perm group)).
  apply in_or_app. right. exact Hr.
Qed.

(** The entry of a trainer who passed the filter, with the two halves
    named. *)
Lemma ranked_entry (df : DataFrame) (scores : list score_row) (s : score_row) :
  compute_trainer_scores df = Return scores ->
  In s scores ->
  let group := rows_of df (trainer (stats s)) in
  let early := mean_of_means (early_half group) in
  let late := mean_of_means (late_half group) in
  (MIN_RESPONSES <= List.length group)%nat /\
  overall_score (stats s) = round2 (mean_of_means group) /\
  early_avg (stats s) = round2 early /\
  late_avg (stats s) = round2 late /\
  improvement (stats s) = round2 (fsub late early) /\
  raw_combined (stats s) = mean_of_means group /\
  trainer_score s = composite (stats s).
Proof.
  intros Hret Hin.
  apply (ranked_In df scores s Hret) in Hin.
  destruct Hin as [name [Hge ->]].
  rewrite (score_group_halves name _ Hge).
  cbn [stats add_trainer_score trainer overall_score early_avg late_avg
       improvement raw_combined trainer_score].
  repeat split; try reflexivity. exact Hge.
Qed.

(** X4: when every numeric rating of a ranked trainer lies between the
    integers [lo] and [hi], so do the reported overall, early and late
    averages and the composite score, and the reported improvement lies
    between [lo - hi] and [hi - lo]. *)
Theorem scores_stay_on_rating_scale
    (df : DataFrame) (scores : list score_row) (s : score_row) (lo hi : Z) :
  compute_trainer_scores df = Return scores ->
  In s scores ->
  ratings_within (inject_Z lo) (inject_Z hi)
                 (rows_of df (trainer (stats s))) ->
  within (inject_Z lo) (inject_Z hi) (overall_score (stats s)) /\
  within (inject_Z lo) (inject_Z hi) (early_avg (stats s)) /\
  within (inject_Z lo) (inject_Z hi) (late_avg (stats s)) /\
  within (inject_Z lo) (inject_Z hi) (trainer_score s) /\
  within (inject_Z (lo - hi)) (inject_Z (hi - lo)) (improvement (stats s)).
Proof.
  intros Hret Hin Hrows.
  destruct (ranked_entry df scores s Hret Hin)
    as [_ [Ho [He [Hl [Hi [_ Hs]]]]]].
  set (group := rows_of df (trainer (stats s))) in *.
  assert (Wo : within (inject_Z lo) (inject_Z hi) (mean_of_means group))
    by (apply mean_of_means_within; exact Hrows).
  assert (We : within (inject_Z lo) (inject_Z hi)
                 (mean_of_means (early_half group))).
  { apply mean_of_means_within. intros r col q Hr.
    apply Hrows. apply early_half_incl. exact Hr. }
  assert (Wl : within (inject_Z lo) (inject_Z hi)
                 (mean_of_means (late_half group))).
  { apply mean_of_means_within. intros r col q Hr.
    apply Hrows. apply late_half_incl. exact Hr. }
  assert (Hround : forall x, within (inject_Z lo) (inject_Z hi) x ->
                             within (inject_Z lo) (inject_Z hi) (round2 x)).
  { intros [q|] Hq; [|exact I]. apply round2Q_between. exact Hq. }
  assert (Wo' : within (inject_Z lo) (inject_Z hi) (overall_score (stats s)))
    by (rewrite Ho; apply Hround; exact Wo).
  assert (Wl' : within (inject_Z lo) (inject_Z hi) (late_avg (stats s)))
    by (rewrite Hl; apply Hround; exact Wl).
  repeat apply conj.
  - exact Wo'.
  - rewrite He. apply Hround. exact We.
  - exact Wl'.
  - rewrite Hs. unfold composite.
    destruct (overall_score (stats s)) as [a|]; [|exact I].
    destruct (late_avg (stats s)) as [b|]; [|exact I].
    cbn [fmul fadd lift2 round2 option_map within] in *.
    apply round2Q_between. lra.
  - rewrite Hi.
    destruct (mean_of_means (late_half group)) as [l|]; [|exact I].
    destruct (mean_of_means (early_half group)) as [e|]; [|exact I].
    cbn [fsub lift2 round2 option_map within] in *.
    apply round2Q_between. unfold Z.sub.
    rewrite !inject_Z_plus, !inject_Z_opp. lra.
Qed.

Lemma scores_stay_on_rating_scale_witness :
  exists scores s,
    compute_trainer_scores Samples.df_B = Return scores /\
    In s scores /\
    within 0 10 (trainer_score s).
Proof.
  eexists. eexists.
  split; [vm_compute; reflexivity|].
  split; [left; reflexivity|].
  apply (scores_stay_on_rating_scale Samples.df_B _ _ 0 10 eq_refl
           (or_introl eq_refl)).
  intros r col q Hr _ Hq. vm_compute in Hr.
  repeat (destruct Hr as [<-|Hr];
          [injection Hq as <-; split; discriminate|]).
  contradiction.
Defined.

(** *** The chronological split *)

Lemma sort_values_asc_sorted {A K : Type} (key : A -> option K)
    (leb : K -> K -> bool) (df : list A) :
  (forall x y, leb x y = true \/ leb y x = true) ->
  Sorted (PyMore.asc_na_last key leb) (sort_values key leb true df).
Proof.
  intros leb_total. unfold sort_values.
  set (present := fun r => match key r with Some _ => true | None => false end).
  set (key_leb := fun r1 r2 =>
         match key r1, key r2 with
         | Some k1, Some k2 => leb k1 k2
         | _, _ => true
         end).
  apply Sorted_app.
  - apply (Sorted_weaken (fun a b => key_leb a b = true)
             (PyMore.asc_na_last key leb) (fun r => present r = true)).
    + intros a b Ha Hb Hab. unfold PyMore.asc_na_last, key_leb, present in *.
      destruct (key a), (key b); try discriminate; exact Hab.
    + apply Forall_forall. intros x Hx.
      apply (Permutation_in _ (Permutation_sym (stable_sort_perm key_leb _)))
        in Hx.
      apply filter_In in Hx. tauto.
    + apply stable_sort_sorted. intros x y. unfold key_leb.
      destruct (key x), (key y); auto.
  - apply (Sorted_weaken (fun _ _ => True) (PyMore.asc_na_last key leb)
             (fun r => present r = false)).
    + intros a b Ha Hb _. unfold PyMore.asc_na_last, present in *.
      destruct (key a), (key b); try discriminate; exact I.
    + apply Forall_forall. intros x Hx. apply filter_In in Hx.
      destruct Hx as [_ Hx]. apply negb_true_iff in Hx. exact Hx.
    + apply Sorted_True.
  - intros x y _ Hy. apply filter_In in Hy. destruct Hy as [_ Hy].
    apply negb_true_iff in Hy.
    unfold PyMore.asc_na_last, present in *.
    destruct (key y); [discriminate|]. destruct (key x); exact I.
Qed.

Lemma not_later_trans (a b c : row) :
  not_later a b -> not_later b c -> not_later a c.
Proof.
  unfold not_later.
  destruct (date a), (date b), (date c); try tauto. lia.
Qed.

Lemma sorted_by_date (group : DataFrame) :
  StronglySorted not_later (sort_values date Z.leb true group).
Proof.
  apply Sorted_StronglySorted.
  - intros a b c. apply not_later_trans.
  - apply (Sorted_weaken (PyMore.asc_na_last date Z.leb) not_later
             (fun _ => True)).
    + intros a b _ _. unfold PyMore.asc_na_last, not_later.
      destruct (date a), (date b); auto. apply Z.leb_le.
    + apply Forall_forall. auto.
    + apply sort_values_asc_sorted. intros x y.
      destruct (Z.leb_spec x y); [left; reflexivity|].
      right. apply Z.leb_le. lia.
Qed.

Lemma StronglySorted_app_inv {A : Type} (R : A -> A -> Prop)
    (l1 l2 : list A) :
  StronglySorted R (l1 ++ l2) ->
  forall a b, In a l1 -> In b l2 -> R a b.
Proof.
  induction l1 as [|x l1 IH]; intros Hs a b Ha Hb; [contradiction|].
  simpl in Hs. apply StronglySorted_inv in Hs. destruct Hs as [Hs Hall].
  destruct Ha as [<-|Ha].
  - rewrite Forall_forall in Hall. apply Hall.
    apply in_or_app. right. exact Hb.
  - apply IH; assumption.
Qed.

Lemma halves_spec
    (df : DataFrame) (scores : list score_row) (s : score_row) :
  compute_trainer_scores df = Return scores ->
  In s scores ->
  let group := rows_of df (trainer (stats s)) in
  early_avg (stats s) = round2 (mean_of_means (early_half group)) /\
  late_avg (stats s) = round2 (mean_of_means (late_half group)) /\
  Permutation (early_half group ++ late_half group) group /\
  List.length (early_half group) = (List.length group / 2)%nat /\
  (0 < List.length (early_half group))%nat /\
  List.length (late_half group)
  = (List.length group - List.length group / 2)%nat /\
  (forall a b,
      In a (early_half group) -> In b (late_half group) -> not_later a b).
Proof.
  intros Hret Hin group.
  destruct (ranked_entry df scores s Hret Hin)
    as [Hge [_ [He [Hl _]]]].
  fold group in Hge, He, Hl.
  assert (Hlen : List.length (sort_values date Z.leb true group)
                 = List.length group) by apply sort_values_length.
  assert (Hdiv : (List.length group / 2 <= List.length group)%nat)
    by (apply Nat.Div0.div_le_upper_bound; lia).
  assert (HlenE : List.length (early_half group)
                  = (List.length group / 2)%nat).
  { unfold early_half. rewrite length_firstn, Hlen. lia. }
  repeat apply conj.
  - exact He.
  - exact Hl.
  - apply halves_perm.
  - exact HlenE.
  - rewrite HlenE. unfold MIN_RESPONSES in Hge.
    apply Nat.div_str_pos. lia.
  - unfold late_half. rewrite length_skipn, Hlen. reflexivity.
  - apply (StronglySorted_app_inv not_later).
    unfold early_half, late_half. rewrite firstn_skipn.
    apply sorted_by_date.
Qed.

(** X5: the early and late averages of a ranked trainer are taken over two
    parts of the trainer's rows that together are all the rows; the early
    part has half of them, rounded down, and is not empty, the late part
    has the rest; no row of the early part is dated after a row of the
    late part, and a row without date sits in the early part only if all
    rows of the late part are without date. *)
Theorem halves_split_chronologically
    (df : DataFrame) (scores : list score_row) (s : score_row) :
  compute_trainer_scores df = Return scores ->
  In s scores ->
  let group := rows_of df (trainer (stats s)) in
  early_avg (stats s) = round2 (mean_of_means (early_half group)) /\
  late_avg (stats s) = round2 (mean_of_means (late_half group)) /\
  Permutation (early_half group ++ late_half group) group /\
  List.length (early_half group) = (List.length group / 2)%nat /\
  (0 < List.length (early_half group))%nat /\
  List.length (late_half group)
  = (List.length group - List.length group / 2)%nat /\
  (forall a b,
      In a (early_half group) -> In b (late_half group) -> not_later a b).
Proof. apply halves_spec. Qed.

Lemma halves_split_chronologically_witness :
  exists scores s,
    compute_trainer_scores Samples.df_B = Return scores /\
    In s scores /\
    List.length (early_half (rows_of Samples.df_B (trainer (stats s))))
    = 2%nat.
Proof.
  eexists. eexists.
  split; [vm_compute; reflexivity|].
  split; [left; reflexivity|].
  match goal with
  | |- List.length (early_half (rows_of _ (trainer (stats ?s)))) = _ =>
      destruct (halves_split_chronologically Samples.df_B _ s eq_refl
                  (or_introl eq_refl)) as [_ [_ [_ [Hlen _]]]]
  end.
  rewrite Hlen. reflexivity.
Defined.

(** *** The improvement and its sign *)

(** X6: the improvement of a ranked trainer is the rounded difference of
    the unrounded late and early means.  It is not negative when the late
    mean is not below the early mean, not positive when it is not above,
    and 0 when the two means differ by less than 0.005. *)
Theorem improvement_follows_the_halves
    (df : DataFrame) (scores : list score_row) (s : score_row) (e l : Q) :
  compute_trainer_scores df = Return scores ->
  In s scores ->
  mean_of_means (early_half (rows_of df (trainer (stats s)))) = Some e ->
  mean_of_means (late_half (rows_of df (trainer (stats s)))) = Some l ->
  improvement (stats s) = Some (round2Q (l - e)) /\
  (e <= l -> 0 <= round2Q (l - e)) /\
  (l <= e -> round2Q (l - e) <= 0) /\
  (-(1 # 200) < l - e < 1 # 200 -> round2Q (l - e) == 0).
Proof.
  intros Hret Hin He Hl.
  destruct (ranked_entry df scores s Hret Hin)
    as [_ [_ [_ [_ [Hi _]]]]].
  rewrite He, Hl in Hi. cbn [fsub lift2 round2 option_map] in Hi.
  repeat apply conj.
  - exact Hi.
  - intros Hle. rewrite <- round2Q_0. apply round2Q_mono. lra.
  - intros Hle. rewrite <- round2Q_0. apply round2Q_mono. lra.
  - apply round2Q_small.
Qed.

Lemma improvement_follows_the_halves_witness :
  exists scores s e l,
    compute_trainer_scores Samples.df_B = Return scores /\
    In s scores /\
    e == 6 /\ l == 9 /\
    improvement (stats s) = Some (round2Q (l - e)) /\
    0 <= round2Q (l - e).
Proof.
  eexists. eexists. eexists. eexists.
  split; [vm_compute; reflexivity|].
  split; [left; reflexivity|].
  pose proof (improvement_follows_the_halves Samples.df_B _ _ _ _ eq_refl
                (or_introl eq_refl) eq_refl eq_refl) as [Hi [Hpos _]].
  split; [|split; [|split; [exact Hi|apply Hpos]]];
    vm_compute; try reflexivity; discriminate.
Defined.

(** *** Identical ratings *)




End ScoutMore.

(** ** More on the evidence quotes *)

Module QuoteMore.
Import Py PyFacts Task1 QuoteSpec QuoteFacts.

(** *** How many quotes come back *)

(** X8: [extract_best_quotes] returns [min(n, k)] quotes for a count
    [n >= 0], where [k] is the number of qualifying cells of the trainer;
    for a negative count it returns [k + n] quotes (none when [k + n] is
    negative), as a Python slice does. *)
Theorem best_quotes_count (df : DataFrame) (name : string) (n : Z) :
  exists quotes,
    extract_best_quotes df name n = Ok quotes /\
    List.length quotes =
    if (0 <=? n)%Z
    then Nat.min (Z.to_nat n) (List.length (all_candidates (rows_of df name)))
    else Z.to_nat
           (Z.of_nat (List.length (all_candidates (rows_of df name))) + n).
Proof.
  eexists. split; [apply extract_best_quotes_ok|].
  unfold slice_to.
  assert (Hlen : List.length (sort_reverse length_leb
                                (all_candidates (rows_of df name)))
                 = List.length (all_candidates (rows_of df name))).
  { symmetry. apply Permutation_length, sort_reverse_perm. }
  destruct (Z.leb_spec 0 n); rewrite length_firstn, Hlen; [reflexivity|].
  lia.
Qed.

(** *** The longest quotes come back *)

Lemma length_leb_sorted_strongly (l : list candidate) :
  StronglySorted (fun a b => (cand_length b <= cand_length a)%nat)
                 (sort_reverse length_leb l).
Proof.
  apply Sorted_StronglySorted.
  - intros a b c Hab Hbc. lia.
  - apply (Sorted_weaken (fun a b => length_leb b a = true) _ (fun _ => True)).
    + intros a b _ _ Hab. unfold length_leb in Hab.
      apply Nat.leb_le in Hab. exact Hab.
    + apply Forall_forall. auto.
    + apply sort_reverse_sorted, length_leb_total.
Qed.

Lemma StronglySorted_split {A : Type} (R : A -> A -> Prop) (k : nat)
    (l : list A) :
  StronglySorted R l ->
  forall a b, In a (firstn k l) -> In b (skipn k l) -> R a b.
Proof.
  intros Hs. rewrite <- (firstn_skipn k l) in Hs. revert Hs.
  generalize (firstn k l) (skipn k l). intros l1 l2.
  induction l1 as [|x l1 IH]; intros Hs a b Ha Hb; [contradiction|].
  simpl in Hs. apply StronglySorted_inv in Hs. destruct Hs as [Hs Hall].
  destruct Ha as [<-|Ha].
  - rewrite Forall_forall in Hall. apply Hall.
    apply in_or_app. right. exact Hb.
  - apply IH; assumption.
Qed.

(** X9: the quotes that come back are the longest ones: the candidates of
    the trainer are the returned quotes together with a remainder, and no
    candidate of the remainder is longer than a returned quote. *)
Theorem best_quotes_are_longest (df : DataFrame) (name : string) (n : Z) :
  exists quotes rest,
    extract_best_quotes df name n = Ok quotes /\
    Permutation (quotes ++ rest) (all_candidates (rows_of df name)) /\
    (forall c c',
        In c quotes -> In c' rest ->
        (cand_length c' <= cand_length c)%nat).
Proof.
  rewrite extract_best_quotes_ok. unfold slice_to.
  set (sorted := sort_reverse length_leb (all_candidates (rows_of df name))).
  assert (Hperm : Permutation sorted (all_candidates (rows_of df name)))
    by (symmetry; apply sort_reverse_perm).
  pose proof (length_leb_sorted_strongly (all_candidates (rows_of df name)))
    as Hs. fold sorted in Hs.
  destruct (0 <=? n)%Z.
  - exists (firstn (Z.to_nat n) sorted), (skipn (Z.to_nat n) sorted).
    split; [reflexivity|]. split; [rewrite firstn_skipn; exact Hperm|].
    apply (StronglySorted_split _ _ _ Hs).
  - set (k := Z.to_nat (Z.of_nat (List.length sorted) + n)).
    exists (firstn k sorted), (skipn k sorted).
    split; [reflexivity|]. split; [rewrite firstn_skipn; exact Hperm|].
    apply (StronglySorted_split _ _ _ Hs).
Qed.

(** *** Quotes of equal length keep the scan order *)

Section Stability.
Context {A : Type} (leb : A -> A -> bool) (p : A -> bool).
Hypothesis same_class :
  forall x y, p x = true -> p y = true -> leb x y = true.

Lemma filter_insert (x : A) (l : list A) :
  filter p (insert leb x l) = filter p (x :: l).
Proof.
  induction l as [|y l IH]; [reflexivity|].
  cbn [insert]. destruct (leb x y) eqn:Hxy; [reflexivity|].
  cbn [filter] in *. rewrite IH.
  destruct (p x) eqn:Hx, (p y) eqn:Hy; try reflexivity.
  rewrite (same_class x y Hx Hy) in Hxy. discriminate.
Qed.

Lemma filter_stable_sort (l : list A) :
  filter p (stable_sort leb l) = filter p l.
Proof.
  induction l as [|x l IH]; [reflexivity|].
  cbn [stable_sort]. rewrite filter_insert. cbn [filter].
  rewrite IH. reflexivity.
Qed.

Lemma filter_sort_reverse (l : list A) :
  filter p (sort_reverse leb l) = filter p l.
Proof.
  unfold sort_reverse.
  rewrite filter_rev, filter_stable_sort, <- filter_rev, rev_involutive.
  reflexivity.
Qed.
End Stability.

(** X10: among the candidates of one length the returned quotes are the
    first ones in scan order (rows in table order, the columns of a row in
    the order of [QUOTE_COLS]), in that order. *)
Theorem equal_length_quotes_keep_scan_order
    (df : DataFrame) (name : string) (n : Z) (len : nat) :
  exists quotes later,
    extract_best_quotes df name n = Ok quotes /\
    filter (fun c => (cand_length c =? len)%nat)
           (all_candidates (rows_of df name))
    = (filter (fun c => (cand_length c =? len)%nat) quotes ++ later)%list.
Proof.
  rewrite extract_best_quotes_ok. unfold slice_to.
  set (p := fun c => (cand_length c =? len)%nat).
  set (sorted := sort_reverse length_leb (all_candidates (rows_of df name))).
  assert (Hfil : filter p sorted = filter p (all_candidates (rows_of df name))).
  { apply filter_sort_reverse. intros x y Hx Hy. unfold p in *.
    apply Nat.eqb_eq in Hx, Hy. unfold length_leb.
    apply Nat.leb_le. lia. }
  rewrite <- Hfil.
  destruct (0 <=? n)%Z.
  - exists (firstn (Z.to_nat n) sorted), (filter p (skipn (Z.to_nat n) sorted)).
    split; [reflexivity|].
    rewrite <- filter_app, firstn_skipn. reflexivity.
  - set (k := Z.to_nat (Z.of_nat (List.length sorted) + n)).
    exists (firstn k sorted), (filter p (skipn k sorted)).
    split; [reflexivity|].
    rewrite <- filter_app, firstn_skipn. reflexivity.
Qed.

End QuoteMore.

(** ** Trimming *)

Module StripFacts.
Import Py PyMore.
Local Open Scope string_scope.

Lemma string_of_list_app (l1 l2 : list ascii) :
  string_of_list_ascii (l1 ++ l2)%list
  = string_of_list_ascii l1 ++ string_of_list_ascii l2.
Proof.
  induction l1 as [|c l1 IH]; simpl; [reflexivity|].
  rewrite IH. reflexivity.
Qed.

Lemma list_of_string_app (s1 s2 : string) :
  list_ascii_of_string (s1 ++ s2)
  = (list_ascii_of_string s1 ++ list_ascii_of_string s2)%list.
Proof.
  induction s1 as [|c s1 IH]; simpl; [reflexivity|].
  rewrite IH. reflexivity.
Qed.

Lemma string_rev_cons (c : ascii) (s : string) :
  string_rev (String c s) = string_rev s ++ String c EmptyString.
Proof.
  unfold string_rev. simpl. apply string_of_list_app.
Qed.

Lemma string_rev_snoc (c : ascii) (s : string) :
  string_rev (s ++ String c EmptyString) = String c (string_rev s).
Proof.
  unfold string_rev. rewrite list_of_string_app. simpl.
  rewrite rev_app_distr. reflexivity.
Qed.

Lemma lstrip_snoc (c : ascii) (m : string) :
  lstrip (m ++ String c EmptyString) =
  match lstrip m with
  | EmptyString => if is_space c then EmptyString else String c EmptyString
  | r => r ++ String c EmptyString
  end.
Proof.
  induction m as [|d m IH]; simpl.
  - destruct (is_space c); reflexivity.
  - destruct (is_space d); [exact IH|reflexivity].
Qed.

(** [rstrip] seen from the front of the string. *)
Lemma rstrip_cons (c : ascii) (s : string) :
  rstrip (String c s) =
  match rstrip s with
  | EmptyString => if is_space c then EmptyString else String c EmptyString
  | r => String c r
  end.
Proof.
  unfold rstrip. rewrite string_rev_cons, lstrip_snoc.
  destruct (lstrip (string_rev s)) as [|d r].
  - destruct (is_space c); reflexivity.
  - rewrite string_rev_snoc.
    rewrite string_rev_cons.
    destruct (string_rev r); reflexivity.
Qed.

Lemma lstrip_starts_clean (s : string) : starts_clean (lstrip s).
Proof.
  induction s as [|c s IH]; simpl; [exact I|].
  destruct (is_space c) eqn:Hc; [exact IH|exact Hc].
Qed.

Lemma lstrip_clean (s : string) : starts_clean s -> lstrip s = s.
Proof.
  destruct s as [|c s]; simpl; [reflexivity|].
  intros ->. reflexivity.
Qed.

Lemma rstrip_starts_clean (s : string) :
  starts_clean s -> starts_clean (rstrip s).
Proof.
  destruct s as [|c s]; [intros _; exact I|].
  simpl. intros Hc. rewrite rstrip_cons, Hc.
  destruct (rstrip s); exact Hc.
Qed.

Lemma rstrip_idempotent (s : string) : rstrip (rstrip s) = rstrip s.
Proof.
  induction s as [|c s IH]; [reflexivity|].
  rewrite rstrip_cons.
  destruct (rstrip s) as [|d r] eqn:Hr.
  - destruct (is_space c) eqn:Hc; [reflexivity|].
    rewrite rstrip_cons, Hc. reflexivity.
  - rewrite rstrip_cons, IH. reflexivity.
Qed.

(** Trimming twice is trimming once. *)
Lemma strip_idempotent (s : string) : strip (strip s) = strip s.
Proof.
  unfold strip.
  rewrite (lstrip_clean (rstrip (lstrip s)))
    by apply rstrip_starts_clean, lstrip_starts_clean.
  apply rstrip_idempotent.
Qed.

Section ReplaceWhitespace.
Variables old new : ascii.
Hypothesis old_space : is_space old = true.
Hypothesis new_space : is_space new = true.

Lemma replaced_space (c : ascii) :
  is_space (if Ascii.eqb c old then new else c) = is_space c.
Proof.
  destruct (Ascii.eqb_spec c old) as [->|_]; [|reflexivity].
  rewrite old_space, new_space. reflexivity.
Qed.

Lemma lstrip_replace (s : string) :
  lstrip (replace old new s) = replace old new (lstrip s).
Proof.
  induction s as [|c s IH]; simpl; [reflexivity|].
  rewrite replaced_space. destruct (is_space c); [exact IH|reflexivity].
Qed.

Lemma rstrip_replace (s : string) :
  rstrip (replace old new s) = replace old new (rstrip s).
Proof.
  induction s as [|c s IH]; [reflexivity|].
  cbn [replace]. rewrite !rstrip_cons, IH, replaced_space.
  destruct (rstrip s) as [|d r]; cbn [replace].
  - destruct (is_space c); reflexivity.
  - reflexivity.
Qed.

Lemma strip_replace (s : string) :
  strip (replace old new s) = replace old new (strip s).
Proof.
  unfold strip. rewrite lstrip_replace, rstrip_replace. reflexivity.
Qed.
End ReplaceWhitespace.

Lemma replace_removes (old new : ascii) (s : string) :
  old <> new -> ~ occurs old (replace old new s).
Proof.
  intros Hne. unfold occurs.
  induction s as [|c s IH]; simpl; [tauto|].
  intros [Hc|Hin]; [|exact (IH Hin)].
  destruct (Ascii.eqb_spec c old) as [->|Hco]; congruence.
Qed.

End StripFacts.

(** ** The text of the returned quotes *)

Module QuoteText.
Import Py PyFacts PyMore Task1 QuoteSpec QuoteFacts StripFacts.

Lemma returned_quote_from (df : DataFrame) (name : string) (n : Z)
    (c : candidate) :
  In c (slice_to n (sort_reverse length_leb
                      (all_candidates (rows_of df name)))) ->
  quoted_from (rows_of df name) c.
Proof.
  intros Hin. apply slice_to_In in Hin.
  apply (Permutation_in _ (Permutation_sym (sort_reverse_perm _ _))) in Hin.
  apply all_candidates_from in Hin. tauto.
Qed.

(** X11: every returned quote is trimmed (trimming it again changes
    nothing, so it neither begins nor ends with whitespace) and contains
    no newline character. *)
Theorem returned_quotes_trimmed_without_newline
    (df : DataFrame) (name : string) (n : Z) :
  exists quotes,
    extract_best_quotes df name n = Ok quotes /\
    Forall (fun c =>
              strip (cand_quote c) = cand_quote c /\
              starts_clean (cand_quote c) /\
              ~ occurs newline (cand_quote c)) quotes.
Proof.
  eexists. split; [apply extract_best_quotes_ok|].
  apply Forall_forall. intros c Hin.
  apply returned_quote_from in Hin.
  destruct Hin as [r [col [s [_ [_ [_ [_ [Hquote _]]]]]]]].
  rewrite Hquote.
  assert (Htrim : strip (replace newline space (strip s))
                  = replace newline space (strip s)).
  { rewrite strip_replace by reflexivity.
    rewrite strip_idempotent. reflexivity. }
  repeat apply conj.
  - exact Htrim.
  - rewrite <- Htrim. unfold strip.
    apply rstrip_starts_clean, lstrip_starts_clean.
  - apply replace_removes. discriminate.
Qed.

End QuoteText.

(** ** Facts about the loader *)

Module LoaderFacts.
Import Py PyFacts PyMore Task1 Loader LoaderSpec.
Local Open Scope string_scope.

(** *** Row identifiers *)

Lemma str_nat_inj (n m : nat) : str_nat n = str_nat m -> n = m.
Proof.
  unfold str_nat. intros H.
  apply DecimalNat.Unsigned.to_uint_inj.
  assert (Hs : Some (Nat.to_uint n) = Some (Nat.to_uint m)).
  { rewrite <- (DecimalString.NilEmpty.usu (Nat.to_uint n)).
    rewrite <- (DecimalString.NilEmpty.usu (Nat.to_uint m)).
    rewrite H. reflexivity. }
  congruence.
Qed.

Lemma nzhead_no_leading_zero (d : Decimal.uint) :
  match Decimal.nzhead d with
  | Decimal.D0 _ => False
  | _ => True
  end.
Proof.
  induction d; simpl; auto.
Qed.

(** The decimal text of a positive number begins with a digit from 1
    to 9. *)
Lemma str_nat_succ_head (n : nat) : starts_with_nonzero (str_nat (S n)).
Proof.
  unfold str_nat.
  pose proof (DecimalNat.Unsigned.to_of (Nat.to_uint (S n))) as Hnorm.
  rewrite DecimalNat.Unsigned.of_to in Hnorm.
  pose proof (DecimalNat.Unsigned.of_to (S n)) as Hback.
  pose proof (nzhead_no_leading_zero (Nat.to_uint (S n))) as Hhead.
  unfold Decimal.unorm in Hnorm.
  destruct (Decimal.nzhead (Nat.to_uint (S n))) eqn:Hnz;
    try contradiction;
    rewrite Hnorm in *;
    try (simpl; repeat split; discriminate).
Qed.

Lemma zeros_cons (k : nat) :
  repeat_string "0" (S k) = String "0"%char (repeat_string "0" k).
Proof. reflexivity. Qed.

Lemma zeros_app_inj (a b : nat) (s1 s2 : string) :
  starts_with_nonzero s1 -> starts_with_nonzero s2 ->
  repeat_string "0" a ++ s1 = repeat_string "0" b ++ s2 ->
  s1 = s2.
Proof.
  intros H1 H2. revert b.
  induction a as [|a IH]; intros [|b] H.
  - exact H.
  - rewrite zeros_cons in H. simpl in H.
    destruct s1 as [|c s1]; [contradiction|].
    injection H as Hc _. destruct H1 as [H1 _]. contradiction.
  - rewrite zeros_cons in H. simpl in H.
    destruct s2 as [|c s2]; [contradiction|].
    injection H as Hc _. destruct H2 as [H2 _]. congruence.
  - rewrite !zeros_cons in H. simpl in H. injection H as H.
    apply (IH b). exact H.
Qed.

Lemma zfill_unsigned (width : nat) (s : string) :
  starts_with_nonzero s ->
  zfill width s = repeat_string "0" (width - String.length s) ++ s.
Proof.
  destruct s as [|c s]; [contradiction|].
  intros [_ [Hplus Hminus]]. unfold zfill.
  destruct (Ascii.eqb_spec c "+"%char); [contradiction|].
  destruct (Ascii.eqb_spec c "-"%char); [contradiction|].
  reflexivity.
Qed.

Lemma append_inj_l (p s1 s2 : string) : p ++ s1 = p ++ s2 -> s1 = s2.
Proof.
  induction p as [|c p IH]; simpl; intros H; [exact H|].
  injection H as H. apply IH. exact H.
Qed.

Lemma row_id_of_inj (i j : nat) : row_id_of i = row_id_of j -> i = j.
Proof.
  unfold row_id_of. intros H. apply append_inj_l in H.
  rewrite !Nat.add_1_r in H.
  rewrite !zfill_unsigned in H by apply str_nat_succ_head.
  apply zeros_app_inj in H; try apply str_nat_succ_head.
  apply str_nat_inj in H. lia.
Qed.

(** *** The kept rows *)

Lemma combine_ids_In (raws : list raw_row) (a : nat) (id : string)
    (raw : raw_row) :
  In (id, raw)
     (combine (map row_id_of (seq a (List.length raws))) raws) <->
  exists k, id = row_id_of (a + k) /\ nth_error raws k = Some raw.
Proof.
  revert a. induction raws as [|r raws IH]; intros a; simpl.
  - split; [tauto|]. intros [[|k] [_ H]]; discriminate.
  - rewrite IH. split.
    + intros [H|[k [Hid Hk]]].
      * injection H as <- <-. exists 0%nat. rewrite Nat.add_0_r. auto.
      * exists (S k). rewrite Nat.add_succ_r. auto.
    + intros [[|k] [Hid Hk]].
      * left. rewrite Nat.add_0_r in Hid. simpl in Hk. congruence.
      * right. exists k. rewrite Nat.add_succ_r in Hid. auto.
Qed.

Lemma map_fst_combine_ids {A : Type} (ids : list string) (l : list A) :
  List.length ids = List.length l -> map fst (combine ids l) = ids.
Proof.
  revert l. induction ids as [|i ids IH]; intros [|x l] H;
    try discriminate; simpl; [reflexivity|].
  injection H as H. rewrite (IH l H). reflexivity.
Qed.

Lemma NoDup_map_fst_filter {A B : Type} (p : A * B -> bool)
    (l : list (A * B)) :
  NoDup (map fst l) -> NoDup (map fst (filter p l)).
Proof.
  induction l as [|x l IH]; simpl; intros H; [constructor|].
  inversion H as [|? ? Hnotin Hrest]; subst.
  destruct (p x); simpl; [|apply IH; exact Hrest].
  constructor; [|apply IH; exact Hrest].
  intros Hin. apply Hnotin.
  apply in_map_iff in Hin. destruct Hin as [y [Hy Hin]].
  apply filter_In in Hin. destruct Hin as [Hin _].
  rewrite <- Hy. apply in_map. exact Hin.
Qed.

Lemma row_ids_NoDup (a n : nat) : NoDup (map row_id_of (seq a n)).
Proof.
  revert a. induction n as [|n IH]; intros a; simpl; constructor.
  - intros Hin. apply in_map_iff in Hin. destruct Hin as [j [Hj Hin]].
    apply row_id_of_inj in Hj. subst j.
    apply in_seq in Hin. lia.
  - apply IH.
Qed.

Section Cleaning.
Variable to_datetime : pyval -> option Z.
Variable to_numeric : pyval -> float.

Lemma load_and_clean_Ok (raws : list raw_row) (df : DataFrame) :
  load_and_clean to_datetime to_numeric raws = Ok df ->
  df = map (fun ir => clean to_datetime to_numeric (fst ir) (snd ir))
           (filter (fun ir => completed_yes (raw_completed (snd ir)))
                   (combine (map row_id_of (seq 0 (List.length raws))) raws)).
Proof.
  unfold load_and_clean.
  destruct (has_str_accessor (map raw_completed raws)); [|discriminate].
  intros H. injection H as <-. reflexivity.
Qed.

(** X12: the identifiers of the cleaned table are pairwise different, and
    a row is in the cleaned table exactly when it is the cleaned form of
    a completed row of the file carrying the identifier of its position
    in the file: the row at position [k], counted from 0, is
    ["ROW-" + str(k + 1).zfill(3)] whatever the other rows hold. *)
Theorem row_ids_unique_and_positional
    (raws : list raw_row) (df : DataFrame) :
  load_and_clean to_datetime to_numeric raws = Ok df ->
  NoDup (map row_id df) /\
  (forall r,
      In r df <->
      exists k raw,
        nth_error raws k = Some raw /\
        completed_yes (raw_completed raw) = true /\
        r = clean to_datetime to_numeric (row_id_of k) raw).
Proof.
  intros Hload. apply load_and_clean_Ok in Hload. subst df. split.
  - rewrite map_map. cbn [row_id clean].
    change (fun x : string * raw_row => fst x) with (@fst string raw_row).
    apply NoDup_map_fst_filter.
    rewrite map_fst_combine_ids by (rewrite length_map, length_seq; reflexivity).
    apply row_ids_NoDup.
  - intros r. rewrite in_map_iff. split.
    + intros [[id raw] [<- Hin]]. apply filter_In in Hin.
      destruct Hin as [Hin Hyes]. apply combine_ids_In in Hin.
      destruct Hin as [k [-> Hk]]. exists k, raw. auto.
    + intros [k [raw [Hk [Hyes ->]]]]. exists (row_id_of k, raw).
      split; [reflexivity|]. apply filter_In. split; [|exact Hyes].
      apply combine_ids_In. exists k. auto.
Qed.
End Cleaning.

Lemma row_ids_unique_and_positional_witness :
  exists df,
    load_and_clean MoreSamples.no_date MoreSamples.number_only
                   MoreSamples.file_rows = Ok df /\
    NoDup (map row_id df).
Proof.
  eexists. split; [vm_compute; reflexivity|].
  apply (row_ids_unique_and_positional MoreSamples.no_date
           MoreSamples.number_only MoreSamples.file_rows _ eq_refl).
Defined.

End LoaderFacts.

(** ** From the file to the ranking *)

Module PipelineFacts.
Import Py PyFacts PyMore Task1 ScoutSpec ScoutFacts ScoutMoreSpec ScoutMore.
Import Loader LoaderSpec LoaderFacts.

Lemma filter_map_length {A B : Type} (f : A -> B) (q : B -> bool)
    (l : list A) :
  List.length (filter q (map f l))
  = List.length (filter (fun x => q (f x)) l).
Proof.
  induction l as [|x l IH]; simpl; [reflexivity|].
  destruct (q (f x)); simpl; rewrite IH; reflexivity.
Qed.

Lemma filter_filter_length {A : Type} (p q : A -> bool) (l : list A) :
  List.length (filter q (filter p l))
  = List.length (filter (fun x => (p x && q x)%bool) l).
Proof.
  induction l as [|x l IH]; simpl; [reflexivity|].
  destruct (p x); simpl; [|exact IH].
  destruct (q x); simpl; rewrite IH; reflexivity.
Qed.

Lemma filter_snd_combine_length {A B : Type} (g : B -> bool)
    (ids : list A) (l : list B) :
  List.length ids = List.length l ->
  List.length (filter (fun ir => g (snd ir)) (combine ids l))
  = List.length (filter g l).
Proof.
  revert ids. induction l as [|x l IH]; intros [|i ids] H;
    try discriminate; simpl; [reflexivity|].
  injection H as H. destruct (g x); simpl; rewrite (IH ids H); reflexivity.
Qed.

Section FromFile.
Variable to_datetime : pyval -> option Z.
Variable to_numeric : pyval -> float.

Lemma cleaned_response_count (raws : list raw_row) (df : DataFrame)
    (name : string) :
  load_and_clean to_datetime to_numeric raws = Ok df ->
  response_count df name = completed_count raws name.
Proof.
  intros Hload. apply load_and_clean_Ok in Hload. subst df.
  unfold response_count, rows_of, completed_count.
  rewrite filter_map_length. cbn [Trainer clean].
  rewrite filter_filter_length.
  apply (filter_snd_combine_length
           (fun raw => (completed_yes (raw_completed raw)
                        && String.eqb (raw_Trainer raw) name)%bool)).
  rewrite length_map, length_seq. reflexivity.
Qed.

(** X13: only completed rows count.  When [load_and_clean] returns a
    table, a trainer has as many rows in it as completed rows in the
    file; so the ranking of that table lists a trainer exactly when the
    file has at least [MIN_RESPONSES] completed rows of them, and the
    scoring stage exits when no trainer has that many. *)
Theorem ranking_counts_completed_rows (raws : list raw_row) (df : DataFrame) :
  load_and_clean to_datetime to_numeric raws = Ok df ->
  (forall name, response_count df name = completed_count raws name) /\
  (forall scores name,
      compute_trainer_scores df = Return scores ->
      (In name (ranked_trainers scores) <->
       (MIN_RESPONSES <= completed_count raws name)%nat)) /\
  ((forall name, (completed_count raws name < MIN_RESPONSES)%nat) ->
   compute_trainer_scores df = SysExit no_trainers_message 1).
Proof.
  intros Hload.
  assert (Hcount : forall name,
             response_count df name = completed_count raws name)
    by (intros name; apply cleaned_response_count; exact Hload).
  repeat apply conj.
  - exact Hcount.
  - intros scores name Hret. rewrite <- Hcount.
    apply (ranked_trainers_spec df scores Hret).
  - intros Hall.
    destruct (compute_trainer_scores_cases df)
      as [[_ Hexit]|[Hne _]]; [exact Hexit|].
    exfalso. destruct (results df) as [|r l] eqn:Hres; [contradiction|].
    assert (Hr : In r (results df)) by (rewrite Hres; left; reflexivity).
    apply results_In in Hr. destruct Hr as [name [Hge _]].
    specialize (Hall name). rewrite <- Hcount in Hall.
    unfold response_count in Hall. lia.
Qed.
End FromFile.

Lemma ranking_counts_completed_rows_witness :
  exists df scores,
    load_and_clean MoreSamples.no_date MoreSamples.number_only
                   MoreSamples.file_rows = Ok df /\
    compute_trainer_scores df = Return scores /\
    In "a"%string (ranked_trainers scores) /\
    ~ In "b"%string (ranked_trainers scores).
Proof.
  eexists. eexists.
  split; [vm_compute; reflexivity|].
  split; [vm_compute; reflexivity|].
  destruct (ranking_counts_completed_rows MoreSamples.no_date
              MoreSamples.number_only MoreSamples.file_rows _ eq_refl)
    as [_ [Hiff _]].
  split.
  - apply (Hiff _ "a"%string eq_refl). vm_compute. lia.
  - intros Hin. apply (Hiff _ "b"%string eq_refl) in Hin.
    vm_compute in Hin. lia.
Defined.

End PipelineFacts.

(** ** Facts about the result assembler *)

Module AssembleFacts.
Import Py PyFacts PyMore Task1 QuoteSpec QuoteFacts Assemble AssembleSpec.
Local Open Scope string_scope.

Lemma two_best_ok (df : DataFrame) (name : string) :
  extract_best_quotes df name 2 = Ok (two_best df name).
Proof. apply extract_best_quotes_ok. Qed.

Lemma two_best_from (df : DataFrame) (name : string) (c : candidate) :
  In c (two_best df name) ->
  quoted_from (rows_of df name) c /\
  cand_length c = String.length (cand_quote c).
Proof.
  unfold two_best. intros Hin. apply slice_to_In in Hin.
  apply (Permutation_in _ (Permutation_sym (sort_reverse_perm _ _))) in Hin.
  apply all_candidates_from. exact Hin.
Qed.

Lemma two_best_length (df : DataFrame) (name : string) :
  (List.length (two_best df name) <= 2)%nat.
Proof.
  unfold two_best, slice_to.
  change (0 <=? 2)%Z with true. cbv iota.
  apply (firstn_le_length (Z.to_nat 2)).
Qed.

Section Formatting.
Variable str_float : float -> string.
Variable str_int : nat -> string.

(** The loop of [build_results] raises nothing and appends one result
    per row. *)
Lemma build_loop_ok (df : DataFrame) (rows : list score_row)
    (acc : list final_result) :
  build_loop str_float str_int df rows acc
  = Ok (acc ++ results_from str_float str_int df (List.length acc) rows)%list.
Proof.
  revert acc. induction rows as [|row rows IH]; intros acc.
  - simpl. rewrite app_nil_r. reflexivity.
  - cbn [build_loop]. rewrite two_best_ok. cbn [bind].
    rewrite IH. rewrite length_app. cbn [List.length results_from].
    rewrite Nat.add_1_r, <- app_assoc. reflexivity.
Qed.

Lemma build_results_ok (df : DataFrame) (scores : list score_row)
    (top_n : Z) :
  build_results str_float str_int df scores top_n
  = Ok (results_from str_float str_int df 0 (slice_to top_n scores)).
Proof.
  unfold build_results. rewrite build_loop_ok. reflexivity.
Qed.

Lemma results_from_names (df : DataFrame) (k : nat) (rows : list score_row) :
  map out_trainer_name (results_from str_float str_int df k rows)
  = map (fun row => trainer (stats row)) rows.
Proof.
  revert k. induction rows as [|row rows IH]; intros k; simpl;
    [reflexivity|]. rewrite IH. reflexivity.
Qed.

Lemma results_from_ranks (df : DataFrame) (k : nat) (rows : list score_row) :
  map out_rank (results_from str_float str_int df k rows)
  = seq (k + 1) (List.length rows).
Proof.
  revert k. induction rows as [|row rows IH]; intros k; simpl;
    [reflexivity|]. rewrite IH. rewrite !Nat.add_1_r. reflexivity.
Qed.

Lemma results_from_length (df : DataFrame) (k : nat) (rows : list score_row) :
  List.length (results_from str_float str_int df k rows) = List.length rows.
Proof.
  revert k. induction rows as [|row rows IH]; intros k; simpl;
    [reflexivity|]. rewrite IH. reflexivity.
Qed.

Lemma results_from_In (df : DataFrame) (k : nat) (rows : list score_row)
    (r : final_result) :
  In r (results_from str_float str_int df k rows) ->
  exists row rank,
    In row rows /\ r = result_at str_float str_int df rank row.
Proof.
  revert k. induction rows as [|row rows IH]; intros k; simpl; [tauto|].
  intros [<-|Hin].
  - exists row, (k + 1)%nat. auto.
  - destruct (IH _ Hin) as [row' [rank [Hrow Hr]]].
    exists row', rank. auto.
Qed.

(** X14: [build_results] raises nothing.  It returns one result per row
    of the head of the ranking, in rank order, numbered 1, 2, ...; for a
    count [top_n >= 0] these are [min(top_n, number of ranked trainers)]
    results, and a negative count drops that many trainers from the end
    of the ranking. *)
Theorem build_results_follows_the_ranking
    (df : DataFrame) (scores : list score_row) (top_n : Z) :
  exists results,
    build_results str_float str_int df scores top_n = Ok results /\
    map out_trainer_name results
    = map (fun row => trainer (stats row)) (slice_to top_n scores) /\
    map out_rank results = seq 1 (List.length results) /\
    List.length results =
    if (0 <=? top_n)%Z
    then Nat.min (Z.to_nat top_n) (List.length scores)
    else Z.to_nat (Z.of_nat (List.length scores) + top_n).
Proof.
  eexists. split; [apply build_results_ok|].
  repeat apply conj.
  - apply results_from_names.
  - rewrite results_from_ranks, results_from_length. reflexivity.
  - rewrite results_from_length. unfold slice_to.
    destruct (Z.leb_spec 0 top_n); rewrite length_firstn; [reflexivity|].
    lia.
Qed.

(** X15: every result carries the numbers of its row of the ranking
    unchanged, and at most two evidence quotes; each quote is the
    identifier and the trimmed text, longer than 20 characters, of a
    free-text cell of that trainer's rows. *)
Theorem build_results_entries
    (df : DataFrame) (scores : list score_row) (top_n : Z) :
  exists results,
    build_results str_float str_int df scores top_n = Ok results /\
    forall r,
      In r results ->
      (exists row,
          In row scores /\
          out_trainer_name r = trainer (stats row) /\
          out_n_responses r = n_responses (stats row) /\
          out_trainer_score r = trainer_score row /\
          out_overall_avg r = overall_score (stats row) /\
          out_improvement r = improvement (stats row)) /\
      (List.length (out_evidence_quotes r) <= 2)%nat /\
      (forall q,
          In q (out_evidence_quotes r) ->
          (20 < String.length (ref_quote q))%nat /\
          exists c,
            quoted_from (rows_of df (out_trainer_name r)) c /\
            ref_row_id q = cand_row_id c /\
            ref_quote q = cand_quote c).
Proof.
  eexists. split; [apply build_results_ok|].
  intros r Hin. apply results_from_In in Hin.
  destruct Hin as [row [rank [Hrow ->]]]. cbn [result_at out_trainer_name
    out_n_responses out_trainer_score out_overall_avg out_improvement
    out_evidence_quotes].
  repeat apply conj.
  - exists row. repeat split. apply (slice_to_In top_n). exact Hrow.
  - rewrite length_map. apply two_best_length.
  - intros q Hin. apply in_map_iff in Hin. destruct Hin as [c [<- Hc]].
    apply two_best_from in Hc. destruct Hc as [Hq Hlen]. split.
    + destruct Hq as [r0 [col [s [_ [_ [_ [_ [Hquote Hlt]]]]]]]].
      cbn [reference ref_quote]. rewrite Hquote, replace_length. exact Hlt.
    + exists c. auto.
Qed.
End Formatting.

End AssembleFacts.

(** ** The case study angle *)

Module AngleFacts.
Import Py PyFacts PyMore Task1 ScoutSpec ScoutFacts ScoutMoreSpec ScoutMore.
Import RoundFacts Assemble.
Local Open Scope string_scope.

Section Formatting.
Variable str_float : float -> string.
Variable str_int : nat -> string.


End Formatting.


End AngleFacts.

(** ** The console report *)

Module ConsoleFacts.
Import Py PyMore Task1 Assemble OutreachFacts.
Local Open Scope string_scope.

Lemma console_quote_cases (quote : string) :
  ((String.length quote <= 120)%nat -> console_quote quote = quote) /\
  ((120 < String.length quote)%nat ->
   console_quote quote = substring 0 120 quote ++ "..." /\
   String.length (console_quote quote) = 123%nat) /\
  (String.length (console_quote quote) <= 123)%nat.
Proof.
  unfold console_quote.
  destruct (Nat.ltb_spec 120 (String.length quote)) as [Hlong|Hshort].
  - assert (Hlen : String.length (substring 0 120 quote ++ "...") = 123%nat).
    { rewrite append_length, substring_0_length by lia. reflexivity. }
    repeat split; try lia; try exact Hlen.
  - repeat split; try lia.
Qed.

Section Formatting.
Variable console_float : float -> string.
Variable console_int : nat -> string.

(** X17: [print_console_results] prints, for every evidence quote of
    every result, the line with the row identifier and the quote between
    double quotes; a quote of at most 120 characters is shown whole, a
    longer one as its first 120 characters followed by ["..."], 123
    characters in all. *)
Theorem console_shows_shortened_quotes
    (results : list final_result) (r : final_result) (q : quote_ref) :
  In r results ->
  In q (out_evidence_quotes r) ->
  In ("      [" ++ ref_row_id q ++ "] " ++ Task2.dquote
        ++ console_quote (ref_quote q) ++ Task2.dquote)
     (print_console_results console_float console_int results) /\
  ((String.length (ref_quote q) <= 120)%nat ->
   console_quote (ref_quote q) = ref_quote q) /\
  ((120 < String.length (ref_quote q))%nat ->
   console_quote (ref_quote q) = substring 0 120 (ref_quote q) ++ "..." /\
   String.length (console_quote (ref_quote q)) = 123%nat) /\
  (String.length (console_quote (ref_quote q)) <= 123)%nat.
Proof.
  intros Hr Hq. split; [|apply console_quote_cases].
  unfold print_console_results.
  apply in_or_app. right. apply in_or_app. left.
  apply in_flat_map. exists r. split; [exact Hr|].
  unfold console_block. apply in_or_app. right. apply in_or_app. left.
  apply (in_map quote_line). exact Hq.
Qed.
End Formatting.

Lemma console_shows_shortened_quotes_witness :
  String.length
    (console_quote
       (ref_quote (hd {| ref_row_id := ""; ref_quote := "" |}
                      (out_evidence_quotes MoreSamples.sample_result))))
  = 123%nat.
Proof.
  apply (console_shows_shortened_quotes (fun _ => "9.0") (fun _ => "5")
           [MoreSamples.sample_result] MoreSamples.sample_result
           (hd {| ref_row_id := ""; ref_quote := "" |}
               (out_evidence_quotes MoreSamples.sample_result))).
  - left. reflexivity.
  - left. reflexivity.
  - vm_compute. lia.
Defined.

End ConsoleFacts.

(** ** More on the outreach draft *)

Module OutreachMore.
Import Py PyMore Task2 OutreachFacts.
Local Open Scope string_scope.

Lemma split_head_without (sep : ascii) (s : string) :
  ~ occurs sep s -> split_head sep s = s.
Proof.
  unfold occurs. induction s as [|c s IH]; simpl; intros Hno; [reflexivity|].
  destruct (Ascii.eqb_spec c sep) as [->|_]; [exfalso; apply Hno; auto|].
  rewrite IH; [reflexivity|]. intros Hin. apply Hno. right. exact Hin.
Qed.

Lemma split_head_before (sep : ascii) (local rest : string) :
  ~ occurs sep local ->
  split_head sep (local ++ String sep rest) = local.
Proof.
  unfold occurs. induction local as [|c local IH]; simpl; intros Hno.
  - rewrite Ascii.eqb_refl. reflexivity.
  - destruct (Ascii.eqb_spec c sep) as [->|_]; [exfalso; apply Hno; auto|].
    rewrite IH; [reflexivity|]. intros Hin. apply Hno. right. exact Hin.
Qed.

Lemma split_head_no_sep (sep : ascii) (s : string) :
  ~ occurs sep (split_head sep s).
Proof.
  unfold occurs. induction s as [|c s IH]; simpl; [tauto|].
  destruct (Ascii.eqb_spec c sep) as [->|Hne]; simpl; [tauto|].
  intros [Hc|Hin]; [congruence|exact (IH Hin)].
Qed.

Lemma replace_keeps_absent (c old new : ascii) (s : string) :
  c <> new -> ~ occurs c s -> ~ occurs c (replace old new s).
Proof.
  unfold occurs. intros Hne. induction s as [|d s IH]; simpl; [tauto|].
  intros Hno [Hd|Hin].
  - destruct (Ascii.eqb_spec d old); [congruence|].
    apply Hno. left. exact Hd.
  - apply IH; [|exact Hin]. intros H. apply Hno. right. exact H.
Qed.

Lemma embedded_quote_length (t : ranked_result) :
  (String.length (embedded_quote t) <= 200)%nat.
Proof.
  unfold embedded_quote.
  destruct (Nat.ltb_spec 200 (String.length (selected_quote t))); [|lia].
  rewrite append_length, substring_0_length by lia. simpl. lia.
Qed.

Section Draft.
Variable title : string -> string.
Variable str_float : float -> string.
Variable str_int : Z -> string.
Variable now_isoformat : string.

(** X18: whatever the entry holds, the quote embedded in the body has at
    most 200 characters and stands between the fixed text before and
    after it; only the first evidence quote is used, and an entry without
    evidence quotes gets the text ["N/A"]. *)
Theorem embedded_quote_bounded (t : ranked_result) :
  (String.length (embedded_quote t) <= 200)%nat /\
  body (generate_outreach_draft title str_float str_int now_isoformat t)
  = body_head title str_float str_int t
    ++ embedded_quote t ++ body_after_quote /\
  (evidence_quotes t = [] -> embedded_quote t = "N/A") /\
  (forall e rest,
      evidence_quotes t = e :: rest ->
      selected_quote t = ev_quote e).
Proof.
  repeat apply conj.
  - apply embedded_quote_length.
  - reflexivity.
  - intros Hnone. unfold embedded_quote, selected_quote. rewrite Hnone.
    reflexivity.
  - intros e rest Hev. unfold selected_quote. rewrite Hev. reflexivity.
Qed.

(** X19: the display name is made from the part of the trainer name
    before the first ["@"] only, with every ["."] turned into a space:
    for a name [local@domain] without ["@"] in [local] it is
    [title(local with spaces for dots)], and the text given to [title]
    contains neither ["@"] nor ["."]. *)
Theorem display_name_drops_the_domain (t : ranked_result) :
  (forall local domain,
      trainer_name t = local ++ String at_sign domain ->
      ~ occurs at_sign local ->
      display_name title t = title (replace dot space_char local)) /\
  (~ occurs at_sign (trainer_name t) ->
   display_name title t = title (replace dot space_char (trainer_name t))) /\
  (exists shown,
      display_name title t = title shown /\
      ~ occurs at_sign shown /\ ~ occurs dot shown).
Proof.
  unfold display_name. repeat apply conj.
  - intros local domain Hname Hno. rewrite Hname.
    rewrite split_head_before by exact Hno. reflexivity.
  - intros Hno. rewrite split_head_without by exact Hno. reflexivity.
  - eexists. split; [reflexivity|]. split.
    + apply replace_keeps_absent; [discriminate|apply split_head_no_sep].
    + apply StripFacts.replace_removes. discriminate.
Qed.
End Draft.

Lemma display_name_drops_the_domain_witness :
  display_name (fun s => s) Samples.short_entry = "ada lovelace".
Proof.
  apply (proj1 (display_name_drops_the_domain (fun s => s)
                  Samples.short_entry) "ada.lovelace" "example.org").
  - reflexivity.
  - unfold occurs. simpl. intros H.
    repeat (destruct H as [H|H]; [discriminate H|]). exact H.
Defined.

End OutreachMore.

(** ** From the results to the draft *)

Module HandoverFacts.
Import Py PyFacts PyMore Task1 QuoteSpec QuoteFacts QuoteMore.
Import Assemble AssembleSpec AssembleFacts.
Local Open Scope string_scope.

Lemma two_best_head (df : DataFrame) (name : string) :
  (all_candidates (rows_of df name) = [] -> two_best df name = []) /\
  (all_candidates (rows_of df name) <> [] ->
   exists c rest,
     two_best df name = c :: rest /\
     In c (all_candidates (rows_of df name)) /\
     forall c', In c' (all_candidates (rows_of df name)) ->
                (cand_length c' <= cand_length c)%nat).
Proof.
  unfold two_best, slice_to.
  change (0 <=? 2)%Z with true. cbv iota.
  change (Z.to_nat 2) with 2%nat.
  pose proof (sort_reverse_perm length_leb
                (all_candidates (rows_of df name))) as Hperm.
  pose proof (length_leb_sorted_strongly
                (all_candidates (rows_of df name))) as Hsorted.
  split.
  - intros Hnil. rewrite Hnil in *.
    apply Permutation_nil in Hperm. rewrite Hperm. reflexivity.
  - intros Hne.
    destruct (sort_reverse length_leb (all_candidates (rows_of df name)))
      as [|c sorted] eqn:Hs.
    + apply Permutation_sym, Permutation_nil in Hperm. contradiction.
    + exists c, (firstn 1 sorted). split; [reflexivity|]. split.
      * apply (Permutation_in _ (Permutation_sym Hperm)). left. reflexivity.
      * intros c' Hc'. apply (Permutation_in _ Hperm) in Hc'.
        apply StronglySorted_inv in Hsorted. destruct Hsorted as [_ Hall].
        destruct Hc' as [<-|Hc']; [lia|].
        rewrite Forall_forall in Hall. apply Hall. exact Hc'.
Qed.

Section Formatting.
Variable str_float : float -> string.
Variable str_int : nat -> string.

(** X20: the quote the outreach stage selects for a result of
    [build_results] is the text of a longest qualifying answer among the
    free-text cells of that trainer's rows, and ["N/A"] when the trainer
    has no qualifying answer. *)
Theorem draft_quotes_a_longest_answer
    (df : DataFrame) (scores : list score_row) (top_n : Z) :
  exists results,
    build_results str_float str_int df scores top_n = Ok results /\
    forall r,
      In r results ->
      let candidates := all_candidates (rows_of df (out_trainer_name r)) in
      (candidates = [] ->
       Task2.selected_quote (handed_over r) = "N/A") /\
      (candidates <> [] ->
       exists c,
         In c candidates /\
         Task2.selected_quote (handed_over r) = cand_quote c /\
         (20 < String.length (cand_quote c))%nat /\
         forall c', In c' candidates ->
                    (String.length (cand_quote c')
                     <= String.length (cand_quote c))%nat).
Proof.
  eexists. split; [apply build_results_ok|].
  intros r Hin. apply results_from_In in Hin.
  destruct Hin as [row [rank [_ ->]]].
  cbn [result_at out_trainer_name].
  destruct (two_best_head df (trainer (stats row))) as [Hnone Hsome].
  split.
  - intros Hnil. unfold Task2.selected_quote, handed_over.
    cbn [Task2.evidence_quotes result_at out_evidence_quotes].
    rewrite (Hnone Hnil). reflexivity.
  - intros Hne. destruct (Hsome Hne) as [c [rest [Hbest [Hc Hmax]]]].
    exists c. split; [exact Hc|].
    destruct (all_candidates_from _ c Hc) as [Hfrom Hlen].
    repeat apply conj.
    + unfold Task2.selected_quote, handed_over.
      cbn [Task2.evidence_quotes result_at out_evidence_quotes].
      rewrite Hbest. reflexivity.
    + destruct Hfrom as [r0 [col [s [_ [_ [_ [_ [Hquote Hlt]]]]]]]].
      rewrite Hquote, replace_length. exact Hlt.
    + intros c' Hc'.
      destruct (all_candidates_from _ c' Hc') as [_ Hlen'].
      rewrite <- Hlen, <- Hlen'. apply Hmax. exact Hc'.
Qed.
End Formatting.

End HandoverFacts.

(** ** The scoring stage as a whole *)

Module MainFacts.
Import Py PyFacts PyMore Task1 ScoutSpec ScoutFacts ScoutMoreSpec ScoutMore.
Import QuoteMore Assemble AssembleSpec AssembleFacts.
Local Open Scope string_scope.

Lemma ranking_strongly_sorted (df : DataFrame) (scores : list score_row) :
  compute_trainer_scores df = Return scores ->
  StronglySorted
    (fun a b => float_not_below (trainer_score a) (trainer_score b)) scores.
Proof.
  unfold compute_trainer_scores.
  destruct (List.length (results df) =? 0)%nat; [discriminate|].
  intros Hret. inversion Hret; subst. clear Hret.
  apply Sorted_StronglySorted.
  - intros a b c. unfold float_not_below.
    destruct (trainer_score a), (trainer_score b), (trainer_score c);
      try tauto. intros H1 H2. lra.
  - eapply (Sorted_weaken (desc_na_last trainer_score Qle_bool) _
              (fun _ => True)).
    + intros a b _ _. unfold desc_na_last, float_not_below.
      destruct (trainer_score a), (trainer_score b); auto.
      apply Qle_bool_iff.
    + apply Forall_forall. auto.
    + apply sort_values_desc_sorted. apply Qle_bool_total.
Qed.

Lemma StronglySorted_firstn {A : Type} (R : A -> A -> Prop) (k : nat)
    (l : list A) :
  StronglySorted R l -> StronglySorted R (firstn k l).
Proof.
  revert l. induction k as [|k IH]; intros l Hs; [constructor|].
  destruct l as [|a l]; [constructor|].
  apply StronglySorted_inv in Hs. destruct Hs as [Hs Hall]. simpl.
  constructor; [apply IH; exact Hs|].
  apply Forall_forall. intros x Hx.
  rewrite Forall_forall in Hall. apply Hall.
  rewrite <- (firstn_skipn k l). apply in_or_app. left. exact Hx.
Qed.

Section Formatting.
Variable str_float : float -> string.
Variable str_int : nat -> string.

Lemma results_from_sorted (df : DataFrame) (k : nat)
    (rows : list score_row) :
  StronglySorted
    (fun a b => float_not_below (trainer_score a) (trainer_score b)) rows ->
  StronglySorted
    (fun a b => float_not_below (out_trainer_score a) (out_trainer_score b))
    (results_from str_float str_int df k rows).
Proof.
  revert k. induction rows as [|row rows IH]; intros k Hs; simpl;
    [constructor|].
  apply StronglySorted_inv in Hs. destruct Hs as [Hs Hall].
  constructor; [apply IH; exact Hs|].
  apply Forall_forall. intros r Hr.
  apply results_from_In in Hr. destruct Hr as [row' [rank [Hrow' ->]]].
  cbn [result_at out_trainer_score].
  rewrite Forall_forall in Hall. apply Hall. exact Hrow'.
Qed.

(** X21: when the scoring stage returns a ranking, [build_results] with
    the default [TOP_N] returns one or two results: the first trainers of
    the ranking, each with at least [MIN_RESPONSES] responses; the score
    of a result is not below the score of any ranked trainer left out,
    and the results themselves are in non-increasing order of score. *)
Theorem top_results_are_the_best (df : DataFrame) (scores : list score_row) :
  compute_trainer_scores df = Return scores ->
  exists results,
    build_results str_float str_int df scores TOP_N = Ok results /\
    (1 <= List.length results <= 2)%nat /\
    map out_trainer_name results = firstn 2 (ranked_trainers scores) /\
    (forall r, In r results ->
               (MIN_RESPONSES <= out_n_responses r)%nat /\
               out_n_responses r = response_count df (out_trainer_name r)) /\
    (forall r s,
        In r results -> In s (skipn 2 scores) ->
        float_not_below (out_trainer_score r) (trainer_score s)) /\
    StronglySorted
      (fun a b => float_not_below (out_trainer_score a) (out_trainer_score b))
      results.
Proof.
  intros Hret.
  pose proof (ranking_strongly_sorted df scores Hret) as Hsorted.
  destruct (ranked_trainers_spec df scores Hret) as [_ [Hiff Hcount]].
  assert (Hne : scores <> []).
  { intros ->. destruct (compute_trainer_scores_cases df)
      as [[_ Hexit]|[Hres [scores' [Hret' Hperm]]]]; [congruence|].
    assert (scores' = []) by congruence. subst scores'.
    apply Permutation_nil in Hperm.
    destruct (results df); [contradiction|discriminate]. }
  eexists. split; [apply build_results_ok|].
  unfold TOP_N, slice_to. change (0 <=? 2)%Z with true. cbv iota.
  change (Z.to_nat 2) with 2%nat.
  repeat apply conj.
  - rewrite results_from_length, length_firstn.
    destruct scores as [|s1 [|s2 rest]]; [contradiction| |]; simpl; lia.
  - rewrite results_from_length. apply firstn_le_length.
  - rewrite results_from_names. unfold ranked_trainers.
    rewrite firstn_map. reflexivity.
  - intros r Hr.
    apply results_from_In in Hr. destruct Hr as [row [rank [Hrow ->]]].
    cbn [result_at out_n_responses out_trainer_name].
    assert (Hin : In row scores).
    { rewrite <- (firstn_skipn 2 scores). apply in_or_app. left. exact Hrow. }
    split; [|apply Hcount; exact Hin].
    rewrite (Hcount row Hin). apply Hiff.
    unfold ranked_trainers.
    apply (in_map (fun s' => trainer (stats s'))). exact Hin.
  - intros r s Hr Hs.
    apply results_from_In in Hr. destruct Hr as [row [rank [Hrow ->]]].
    cbn [result_at out_trainer_score].
    apply (StronglySorted_split _ 2 scores Hsorted row s Hrow Hs).
  - apply results_from_sorted. apply StronglySorted_firstn. exact Hsorted.
Qed.
End Formatting.

Lemma top_results_are_the_best_witness :
  exists scores results,
    compute_trainer_scores Samples.df_unrated = Return scores /\
    build_results (fun _ => "x") (fun _ => "n") Samples.df_unrated scores TOP_N
    = Ok results /\
    List.length results = 2%nat.
Proof.
  eexists. eexists.
  split; [vm_compute; reflexivity|].
  split; [vm_compute; reflexivity|].
  destruct (top_results_are_the_best (fun _ => "x") (fun _ => "n")
              Samples.df_unrated _ eq_refl) as [results [Hok _]].
  vm_compute. reflexivity.
Defined.

End MainFacts.
